(** * ml_service: feature pipeline, per-symbol model, stores and scheduler

    A shallow embedding of [ml_service.py].

    Conventions of the embedding.
    - float64 values are idealised: a JSON number is an exact rational [Q];
      a derived float is a [cell], a rational extended with the two
      infinities and NaN, which is all [dropna] looks at.  Rounding and
      overflow are not modelled.
    - A Python dict that is iterated ([data_store.items()]) is an
      association list in insertion order.
    - An uncaught Python exception is an explicit [Raised] outcome.
    - The scikit-learn estimator and scaler are opaque capabilities, bundled
      in a record; any of their calls may raise.
    - [datetime.now()] in the prediction payload is left out. *)

From Stdlib Require Import String.
From Stdlib Require Import List Bool Arith ZArith QArith Lia.
From Stdlib Require Import Sorting.Sorted Sorting.Permutation.
Import ListNotations.

Local Open Scope nat_scope.

(* ================================================================== *)
(** ** Float cells *)

Inductive cell : Type :=
| NaN : cell
| Inf : bool -> cell          (* [Inf true] is +inf, [Inf false] is -inf *)
| Num : Q -> cell.

(** [pandas.isna] on a float: infinities are not missing values. *)
Definition isna (c : cell) : bool :=
  match c with NaN => true | _ => false end.

Definition isfinite (c : cell) : bool :=
  match c with Num _ => true | _ => false end.

Definition qzero (q : Q) : bool := Qeq_bool q 0%Q.

(** IEEE division of two finite numbers: [0/0] is NaN, [x/0] is signed
    infinity. *)
Definition float_div (p q : Q) : cell :=
  if qzero q then
    if qzero p then NaN
    else Inf (if Qlt_le_dec 0%Q p then true else false)
  else Num (p / q)%Q.

Definition cell_sub (c : cell) (q : Q) : cell :=
  match c with Num x => Num (x - q)%Q | other => other end.

(** Multiplication by a positive constant. *)
Definition cell_scale (c : cell) (q : Q) : cell :=
  match c with Num x => Num (x * q)%Q | other => other end.

(* ================================================================== *)
(** ** Observations and the sorted frame *)

(** One dict of the request's ["data"] list; its four keys are present and
    hold a string, two numbers and a timestamp. *)
Record Observation : Type := mkObservation {
  symbol : string;
  price : Q;
  volume : Q;
  timestamp : Z           (* the instant [pd.to_datetime] parses *)
}.

Definition default_obs : Observation := mkObservation EmptyString 0%Q 0%Q 0%Z.

(** [df.sort_values('timestamp')].  Rows with equal timestamps keep their
    arrival order; on distinct timestamps every sorting algorithm gives
    this result. *)
Fixpoint insert_by_timestamp (o : Observation) (l : list Observation)
  : list Observation :=
  match l with
  | [] => [o]
  | x :: r =>
      if (timestamp o <=? timestamp x)%Z then o :: x :: r
      else x :: insert_by_timestamp o r
  end.

Definition sort_values (l : list Observation) : list Observation :=
  fold_right insert_by_timestamp [] l.

(* ================================================================== *)
(** ** StockPriceModel._prepare_features *)

Definition qsum (l : list Q) : Q := fold_right Qplus 0%Q l.

Definition prices (df : list Observation) : list Q := map price df.

(** [df['price'].rolling(window=w).mean()] at position [i]: NaN until a
    full window is available. *)
Definition rolling_mean_at (w : nat) (xs : list Q) (i : nat) : cell :=
  if i + 1 <? w then NaN
  else Num (qsum (firstn w (skipn (i + 1 - w) xs)) / inject_Z (Z.of_nat w))%Q.

(** [df['price'].pct_change(1)] at position [i]: [xs[i] / xs[i-1] - 1]. *)
Definition pct_change_at (xs : list Q) (i : nat) : cell :=
  match i with
  | O => NaN
  | S j => cell_sub (float_div (nth i xs 0%Q) (nth j xs 0%Q)) 1%Q
  end.

(** [df['price'].shift(-1)] at position [i]. *)
Definition shift_back_at (xs : list Q) (i : nat) : cell :=
  match nth_error xs (S i) with
  | Some x => Num x
  | None => NaN
  end.

(** A row of the frame once the three columns are added. *)
Record Row : Type := mkRow {
  r_symbol : string;
  r_price : Q;
  r_volume : Q;
  r_timestamp : Z;
  r_SMA_5 : cell;
  r_price_change_1d : cell;
  r_target : cell
}.

Definition row_at (df : list Observation) (i : nat) : Row :=
  let o := nth i df default_obs in
  mkRow (symbol o) (price o) (volume o) (timestamp o)
        (rolling_mean_at 5 (prices df) i)
        (pct_change_at (prices df) i)
        (shift_back_at (prices df) i).

(** The frame after the three column assignments. *)
Definition add_columns (df : list Observation) : list Row :=
  map (row_at df) (seq 0 (length df)).

Definition has_na (r : Row) : bool :=
  isna (r_SMA_5 r) || isna (r_price_change_1d r) || isna (r_target r).

(** [df.dropna()]. *)
Definition dropna (fr : list Row) : list Row :=
  filter (fun r => negb (has_na r)) fr.

(** A row of [df[features]], in the fixed column order. *)
Record FeatureRow : Type := mkFeatureRow {
  f_price : Q;
  f_volume : Q;
  f_SMA_5 : cell;
  f_price_change_1d : cell
}.

Definition features (r : Row) : FeatureRow :=
  mkFeatureRow (r_price r) (r_volume r) (r_SMA_5 r) (r_price_change_1d r).

Definition _prepare_features (df : list Observation)
  : list FeatureRow * list cell :=
  let fr := dropna (add_columns df) in
  (map features fr, map r_target fr).

(** Row [i] of the frame survives [dropna]. *)
Definition survives (df : list Observation) (i : nat) : bool :=
  negb (has_na (row_at df i)).

(** The price change is NaN exactly at position 0 and where a zero price
    follows a zero price. *)
Definition zero_after_zero (xs : list Q) (i : nat) : bool :=
  match i with
  | O => true
  | S j => qzero (nth j xs 0%Q) && qzero (nth i xs 0%Q)
  end.

(** No price 0 is directly followed by another price 0. *)
Fixpoint no_zero_pair (xs : list Q) : bool :=
  match xs with
  | a :: (b :: _) as r => negb (qzero a && qzero b) && no_zero_pair r
  | _ => true
  end.

(* ================================================================== *)
(** ** The scikit-learn capabilities *)

(** [StandardScaler] and [RandomForestRegressor] as an interface.  Every
    call returns [None] when the library raises (for instance its input
    validation rejecting a non-finite value). *)
Record Sklearn : Type := mkSklearn {
  ScalerFit : Type;                  (* statistics held by a fitted scaler *)
  ForestFit : Type;                  (* trees held by a fitted forest *)
  Scaled : Type;                     (* a scaled feature row *)
  fit_transform : list FeatureRow -> option (ScalerFit * list Scaled);
  transform : ScalerFit -> FeatureRow -> option Scaled;
  fit : list Scaled -> list cell -> option ForestFit;
  forest_predict : ForestFit -> Scaled -> option Q
}.

Inductive exn : Type :=
| KeyError (key : string)
| NotFittedError
| LibraryError.                      (* anything else scikit-learn raises *)

Definition all_finite (x : FeatureRow) : bool :=
  isfinite (f_SMA_5 x) && isfinite (f_price_change_1d x).

(** A small instance used to run the service on concrete inputs: the scaler
    is the identity on finite rows and rejects the others, as the library's
    validation does; the forest forecasts the row's own price. *)
Definition toy_sklearn : Sklearn :=
  mkSklearn unit unit FeatureRow
    (fun X => if forallb all_finite X then Some (tt, X) else None)
    (fun _ x => if all_finite x then Some x else None)
    (fun _ _ => Some tt)
    (fun _ x => Some (f_price x)).

(* ================================================================== *)
(** ** StockPriceModel *)

Section Model.

Context (sk : Sklearn).

(** The object's attributes; [None] is the estimator before any fit. *)
Record StockPriceModel : Type := mkModel {
  m_symbol : string;
  m_model : option (ForestFit sk);
  m_scaler : option (ScalerFit sk)
}.

(** [StockPriceModel.__init__]. *)
Definition init (sym : string) : StockPriceModel := mkModel sym None None.

(** The dict [predict] returns on success. *)
Record Prediction : Type := mkPrediction {
  p_symbol : string;
  current_price : Q;
  predicted_price : Q;
  predicted_change : Q;
  predicted_change_percent : cell
}.

Inductive PredictResult : Type :=
| PredictError (msg : string)        (* the dict with the key "error" *)
| PredictOk (p : Prediction)
| PredictRaised (e : exn).

(** [df['price'].iloc[-1]]. *)
Definition last_price (df : list Observation) : Q :=
  price (last df default_obs).

(** [X.iloc[-1:]], [None] when [X.empty]. *)
Definition iloc_last (X : list FeatureRow) : option FeatureRow :=
  nth_error X (length X - 1).

(** [StockPriceModel.predict]. *)
Definition predict (m : StockPriceModel) (current_data : list Observation)
  : PredictResult :=
  match current_data with
  | [] => PredictRaised (KeyError "timestamp")
  | _ =>
    let df := sort_values current_data in
    let X := fst (_prepare_features df) in
    match iloc_last X with
    | None => PredictError "Not enough data for prediction"
    | Some x =>
      match m_scaler m with
      | None => PredictError "Model not yet trained"
      | Some sc =>
        match transform sk sc x with
        | None => PredictRaised LibraryError
        | Some X_scaled =>
          match m_model m with
          | None => PredictRaised NotFittedError
          | Some f =>
            match forest_predict sk f X_scaled with
            | None => PredictRaised LibraryError
            | Some prediction =>
              let current_price := last_price df in
              PredictOk
                (mkPrediction (m_symbol m) current_price prediction
                   (prediction - current_price)%Q
                   (cell_scale
                      (float_div (prediction - current_price)%Q current_price)
                      100%Q))
            end
          end
        end
      end
    end
  end.

Inductive TrainResult : Type :=
| TrainError (msg : string)          (* the dict with the key "error" *)
| TrainSuccess (current_price predicted_price : Q) (data_points : nat)
| TrainRaised (e : exn).

(** [historical_data[-10:]]. *)
Definition last10 (l : list Observation) : list Observation :=
  skipn (length l - 10) l.

(** [StockPriceModel.train]: the result and the object afterwards.  A fit
    replaces the earlier fit; [StandardScaler.fit] discards its statistics
    before it validates the input. *)
Definition train (m : StockPriceModel) (historical_data : list Observation)
  : TrainResult * StockPriceModel :=
  match historical_data with
  | [] => (TrainRaised (KeyError "timestamp"), m)
  | _ =>
    let df := sort_values historical_data in
    let '(X, y) := _prepare_features df in
    if length X <? 10 then (TrainError "Not enough data for training", m)
    else
      match fit_transform sk X with
      | None =>
          (TrainRaised LibraryError, mkModel (m_symbol m) (m_model m) None)
      | Some (sc, X_scaled) =>
        let m1 := mkModel (m_symbol m) (m_model m) (Some sc) in
        match fit sk X_scaled y with
        | None => (TrainRaised LibraryError, m1)
        | Some f =>
          let m2 := mkModel (m_symbol m) (Some f) (Some sc) in
          match predict m2 (last10 historical_data) with
          | PredictOk pred =>
              (TrainSuccess (last_price df) (predicted_price pred) (length X),
               m2)
          | PredictError _ => (TrainRaised (KeyError "predicted_price"), m2)
          | PredictRaised e => (TrainRaised e, m2)
          end
        end
      end
  end.

(** "Fitted" as the code observes it: the scaler and the forest both hold
    parameters. *)
Definition fitted (m : StockPriceModel) : bool :=
  match m_scaler m, m_model m with
  | Some _, Some _ => true
  | _, _ => false
  end.

(** The object after a run of [train] calls. *)
Definition train_each (m : StockPriceModel) (hs : list (list Observation))
  : StockPriceModel :=
  fold_left (fun m h => snd (train m h)) hs m.

End Model.

Arguments init {sk} sym.
Arguments predict {sk} m current_data : simpl never.
Arguments train {sk} m historical_data : simpl never.
Arguments fitted {sk} m.
Arguments train_each {sk} m hs.
Arguments m_symbol {sk} _.
Arguments m_model {sk} _.
Arguments m_scaler {sk} _.

(* ================================================================== *)
(** ** The two module-level dicts *)

Section Dict.

Context {V : Type}.

(** A Python dict with string keys, in insertion order. *)
Definition dict : Type := list (string * V).

(** [d.get(k)] / [k in d]. *)
Fixpoint dict_get (k : string) (d : dict) : option V :=
  match d with
  | [] => None
  | (k', v) :: r => if String.eqb k k' then Some v else dict_get k r
  end.

(** [d[k] = v]: an existing key keeps its place, a new key goes last. *)
Fixpoint dict_set (k : string) (v : V) (d : dict) : dict :=
  match d with
  | [] => [(k, v)]
  | (k', v') :: r =>
      if String.eqb k k' then (k, v) :: r else (k', v') :: dict_set k v r
  end.

Definition dict_mem (k : string) (d : dict) : bool :=
  match dict_get k d with Some _ => true | None => false end.

End Dict.

Arguments dict V : clear implicits.

(* ================================================================== *)
(** ** The service: request handlers and the background thread *)

(** The JSON body of [POST /predict]; [None] is an absent (or null) key. *)
Record Payload : Type := mkPayload {
  req_symbol : option string;
  req_data : option (list Observation)
}.

(** [not symbol]. *)
Definition not_symbol (s : option string) : bool :=
  match s with
  | None => true
  | Some s => String.eqb s ""
  end.

(** [not stock_data]. *)
Definition not_data (d : option (list Observation)) : bool :=
  match d with
  | None | Some [] => true
  | Some (_ :: _) => false
  end.

Inductive Response : Type :=
| BadRequest (msg : string)                  (* 400, {"error": msg} *)
| PendingTraining (msg : string)             (* 200, error + pending_training *)
| PredictionError (msg : string)             (* 200, {"error": msg} *)
| PredictionReply (p : Prediction)           (* 200, the prediction dict *)
| ServerError (e : exn)                      (* uncaught exception: 500 *)
| NotFound (msg : string)                    (* 404, {"error": msg} *)
| History (data : list Observation).         (* 200, the stored list *)

Section Service.

Context (sk : Sklearn).

(** The module globals, and the lines the background thread has printed
    (symbol and [len(data)] of each "Trained model for ..." line). *)
Record Service : Type := mkService {
  models : dict (StockPriceModel sk);
  data_store : dict (list Observation);
  printed : list (string * nat)
}.

Definition empty_service : Service := mkService [] [] [].

Definition reply (r : PredictResult) : Response :=
  match r with
  | PredictError msg => PredictionError msg
  | PredictOk p => PredictionReply p
  | PredictRaised e => ServerError e
  end.

(** [data_store[symbol] = stock_data]. *)
Definition data_store_replace (symbol : string) (stock_data : list Observation)
    (st : Service) : Service :=
  mkService (models st) (dict_set symbol stock_data (data_store st))
    (printed st).

(** [predict_endpoint]: the response and the globals afterwards. *)
Definition predict_endpoint (payload : Payload) (st : Service)
  : Response * Service :=
  if not_symbol (req_symbol payload) || not_data (req_data payload)
  then (BadRequest "Symbol and data required", st)
  else
    match req_symbol payload, req_data payload with
    | Some symbol, Some stock_data =>
      let st1 := data_store_replace symbol stock_data st in
      match dict_get symbol (models st1) with
      | Some m => (reply (predict m stock_data), st1)
      | None =>
        let candidate := init symbol in
        match train candidate stock_data with
        | (TrainRaised e, _) => (ServerError e, st1)
        | (TrainError msg, _) => (PendingTraining msg, st1)
        | (TrainSuccess _ _ _, candidate') =>
          let st2 := mkService (dict_set symbol candidate' (models st1))
                       (data_store st1) (printed st1) in
          (reply (predict candidate' stock_data), st2)
        end
      end
    | _, _ => (BadRequest "Symbol and data required", st)
    end.

(** [get_data]. *)
Definition get_data (symbol : string) (st : Service) : Response :=
  match dict_get symbol (data_store st) with
  | None => NotFound "No data for this symbol"
  | Some data => History data
  end.

(** The [for] loop of [background_training] over [data_store.items()].
    The first component is the exception that ended the loop, if any. *)
Fixpoint train_items (items : list (string * list Observation)) (st : Service)
  : option exn * Service :=
  match items with
  | [] => (None, st)
  | (symbol, data) :: rest =>
    if 20 <=? length data then
      (* a missing entry is created first; [train] then updates the object
         the dict holds *)
      let m :=
        match dict_get symbol (models st) with
        | Some m => m
        | None => init symbol
        end in
      let '(result, m') := train m data in
      let models2 := dict_set symbol m' (models st) in
      match result with
      | TrainRaised e => (Some e, mkService models2 (data_store st) (printed st))
      | _ =>
        train_items rest
          (mkService models2 (data_store st)
             (printed st ++ [(symbol, length data)]))
      end
    else train_items rest st
  end.

(** One pass of the [while True] body (the sleep left out). *)
Definition tick (st : Service) : option exn * Service :=
  train_items (data_store st) st.

(** The process: the globals and whether the background thread still
    runs.  Requests and ticks are taken one at a time. *)
Record Process : Type := mkProcess {
  service : Service;
  scheduler_alive : bool
}.

Inductive event : Type :=
| Post (payload : Payload)
| Get (symbol : string)
| Tick.

Definition step (p : Process) (e : event) : Process :=
  match e with
  | Post payload =>
      mkProcess (snd (predict_endpoint payload (service p))) (scheduler_alive p)
  | Get _ => p
  | Tick =>
      if scheduler_alive p then
        match tick (service p) with
        | (None, st) => mkProcess st true
        | (Some _, st) => mkProcess st false
        end
      else p
  end.

Definition run (p : Process) (es : list event) : Process :=
  fold_left step es p.

Definition start : Process := mkProcess empty_service true.

(** No [train] call on [data] ends in an exception. *)
Definition never_raises (data : list Observation) : Prop :=
  forall (m : StockPriceModel sk) (e : exn),
    fst (train m data) <> TrainRaised e.

(** Every registered model is fitted. *)
Definition registry_fitted (st : Service) : Prop :=
  forall s m, dict_get s (models st) = Some m -> fitted m = true.

(** The history store holds each symbol once, and under a non-empty symbol
    a non-empty list. *)
Definition store_ok (st : Service) : Prop :=
  NoDup (map fst (data_store st)) /\
  forall s d, In (s, d) (data_store st) -> s <> ""%string /\ d <> [].

(** The registry holds each symbol once; the model under a symbol carries
    that symbol, and the symbol has a stored history. *)
Definition registry_ok (st : Service) : Prop :=
  NoDup (map fst (models st)) /\
  forall s m, dict_get s (models st) = Some m ->
    m_symbol m = s /\ dict_mem s (data_store st) = true.

(** The event is a request that gets past the guard and names [s]. *)
Definition stores_to (s : string) (e : event) : bool :=
  match e with
  | Post payload =>
      negb (not_symbol (req_symbol payload) || not_data (req_data payload))
      && match req_symbol payload with
         | Some s' => String.eqb s' s
         | None => false
         end
  | _ => false
  end.

End Service.

Arguments models {sk} _.
Arguments data_store {sk} _.
Arguments printed {sk} _.
Arguments service {sk} _.
Arguments scheduler_alive {sk} _.
Arguments predict_endpoint {sk} payload st.
Arguments get_data {sk} symbol st.
Arguments data_store_replace {sk} symbol stock_data st.
Arguments train_items {sk} items st.
Arguments tick {sk} st.
Arguments step {sk} p e.
Arguments run {sk} p es.
Arguments registry_fitted {sk} st.
Arguments never_raises sk data : clear implicits.
Arguments store_ok {sk} st.
Arguments registry_ok {sk} st.


(* ================================================================== *)
(** ** Sample inputs *)

(** [n] observations one time unit apart, price and volume rising by one. *)
Fixpoint ramp (sym : string) (n : nat) (p v t : Z) : list Observation :=
  match n with
  | O => []
  | S k =>
      mkObservation sym (inject_Z p) (inject_Z v) t
      :: ramp sym k (p + 1) (v + 1) (t + 1)
  end.

(** [n] observations one time unit apart, all with price [p]. *)
Fixpoint flat (sym : string) (n : nat) (p : Q) (v t : Z) : list Observation :=
  match n with
  | O => []
  | S k => mkObservation sym p (inject_Z v) t :: flat sym k p (v + 1) (t + 1)
  end.

(** The ten-row scenario of the specification: prices 100..109. *)
Definition ten_rows : list Observation := ramp "AAA" 10 100 10 0.

(** Ten rows, two neighbouring prices being zero. *)
Definition ten_rows_zero_pair : list Observation :=
  ramp "AAA" 5 100 10 0 ++ flat "AAA" 2 0 15 5 ++ ramp "AAA" 3 107 17 7.

(** The 25-row scenario of the specification: prices 100..124. *)
Definition twenty_five_rows : list Observation := ramp "BBB" 25 100 10 0.

(** A single observation. *)
Definition one_row : list Observation := ramp "AAA" 1 100 10 0.

(** Twenty observations, every price being zero. *)
Definition twenty_zero : list Observation := flat "ZZZ" 20 0 10 0.

(** Twenty rising prices followed by ten zero prices. *)
Definition rise_then_zero : list Observation :=
  ramp "AAA" 20 100 10 0 ++ flat "AAA" 10 0 30 20.

Definition post (sym : string) (data : list Observation) : Payload :=
  mkPayload (Some sym) (Some data).

(** Seven rows whose fifth and sixth prices are zero. *)
Definition seven_rows_zero_pair : list Observation :=
  flat "AAA" 4 1 10 0 ++ flat "AAA" 2 0 14 4 ++ flat "AAA" 1 1 16 6.

(** Seven rows with one zero price followed by a positive one. *)
Definition zero_then_up : list Observation :=
  flat "AAA" 4 1 10 0 ++ flat "AAA" 1 0 14 4 ++ flat "AAA" 1 5 15 5
  ++ flat "AAA" 1 1 16 6.

(** The service after the all-zero batch and the 25-row batch are posted. *)
Definition two_symbols : Service toy_sklearn :=
  service (run (start toy_sklearn)
             [Post (post "ZZZ" twenty_zero); Post (post "BBB" twenty_five_rows)]).

(** The process after a batch whose training raises and the 25-row batch
    are posted. *)
Definition raising_symbol_first : Process toy_sklearn :=
  run (start toy_sklearn)
    [Post (post "AAA" rise_then_zero); Post (post "BBB" twenty_five_rows)].

(* ================================================================== *)
(** * Properties *)

(** ** Sorting *)

Lemma sort_values_sorted_id (l : list Observation) :
  StronglySorted Z.le (map timestamp l) -> sort_values l = l.
Proof.
  unfold sort_values.
  induction l as [|a r IH]; simpl; intros Hs; [reflexivity|].
  inversion Hs as [|? ? Hr Hall]; subst.
  rewrite (IH Hr).
  destruct r as [|x r']; simpl; [reflexivity|].
  inversion Hall as [|? ? Hax _]; subst.
  apply Z.leb_le in Hax. now rewrite Hax.
Qed.

Lemma strictly_sorted_le (l : list Z) :
  StronglySorted Z.lt l -> StronglySorted Z.le l.
Proof.
  induction 1 as [|a l Hs IH Hall]; constructor; auto.
  eapply Forall_impl; [|exact Hall]. intros; lia.
Qed.

Lemma sort_values_increasing_id (l : list Observation) :
  StronglySorted Z.lt (map timestamp l) -> sort_values l = l.
Proof. intros H. apply sort_values_sorted_id, strictly_sorted_le, H. Qed.

Lemma sort_values_length (l : list Observation) :
  length (sort_values l) = length l.
Proof.
  assert (Hins : forall o r, length (insert_by_timestamp o r) = S (length r)).
  { intros o r. induction r as [|x r IH]; simpl; [reflexivity|].
    destruct (timestamp o <=? timestamp x)%Z; simpl; congruence. }
  unfold sort_values.
  induction l as [|a r IH]; simpl; [reflexivity|].
  now rewrite Hins, IH.
Qed.

Lemma sorted_nth_lt (l : list Observation) :
  StronglySorted Z.lt (map timestamp l) ->
  forall i j, i < j -> j < length l ->
    (timestamp (nth i l default_obs) < timestamp (nth j l default_obs))%Z.
Proof.
  induction l as [|a r IH]; simpl; intros Hs i j Hij Hj; [lia|].
  inversion Hs as [|? ? Hr Hall]; subst.
  destruct j as [|j]; [lia|]. destruct i as [|i].
  - rewrite Forall_forall in Hall. apply Hall, in_map, nth_In. lia.
  - apply IH; auto; lia.
Qed.

(** ** The derived frame, position by position *)

Lemma filter_map_swap {A B} (f : B -> bool) (g : A -> B) (l : list A) :
  filter f (map g l) = map g (filter (fun x => f (g x)) l).
Proof.
  induction l as [|a l IH]; simpl; [reflexivity|].
  destruct (f (g a)); simpl; now rewrite IH.
Qed.

Lemma filter_all {A} (f : A -> bool) (l : list A) :
  (forall x, In x l -> f x = true) -> filter f l = l.
Proof.
  induction l as [|a l IH]; simpl; intros H; [reflexivity|].
  rewrite (H a (or_introl eq_refl)). f_equal. apply IH. auto.
Qed.

Lemma filter_none {A} (f : A -> bool) (l : list A) :
  (forall x, In x l -> f x = false) -> filter f l = [].
Proof.
  induction l as [|a l IH]; simpl; intros H; [reflexivity|].
  rewrite (H a (or_introl eq_refl)). apply IH. auto.
Qed.

Lemma dropna_add_columns (df : list Observation) :
  dropna (add_columns df)
  = map (row_at df) (filter (survives df) (seq 0 (length df))).
Proof. unfold dropna, add_columns. now rewrite filter_map_swap. Qed.

Lemma isna_rolling_mean (xs : list Q) (i : nat) :
  isna (rolling_mean_at 5 xs i) = (i <? 4).
Proof.
  unfold rolling_mean_at.
  destruct (i + 1 <? 5) eqn:E; simpl; symmetry.
  - apply Nat.ltb_lt. apply Nat.ltb_lt in E. lia.
  - apply Nat.ltb_ge. apply Nat.ltb_ge in E. lia.
Qed.

Lemma isna_shift_back (xs : list Q) (i : nat) :
  isna (shift_back_at xs i) = (length xs <=? S i).
Proof.
  unfold shift_back_at.
  destruct (nth_error xs (S i)) eqn:E; simpl; symmetry.
  - apply Nat.leb_gt. apply nth_error_Some. congruence.
  - apply Nat.leb_le. now apply nth_error_None.
Qed.

Lemma isna_pct_change (xs : list Q) (i : nat) :
  isna (pct_change_at xs i) = zero_after_zero xs i.
Proof.
  destruct i as [|j]; [reflexivity|].
  unfold pct_change_at, zero_after_zero, float_div.
  destruct (qzero (nth j xs 0%Q)); [|reflexivity].
  destruct (qzero (nth (S j) xs 0%Q)); reflexivity.
Qed.

Lemma survives_spec (df : list Observation) (i : nat) :
  survives df i
  = (4 <=? i) && negb (zero_after_zero (prices df) i) && (S i <? length df).
Proof.
  unfold survives, has_na, row_at; simpl.
  rewrite isna_rolling_mean, isna_pct_change, isna_shift_back.
  unfold prices at 2. rewrite length_map.
  rewrite !negb_orb.
  replace (negb (i <? 4)) with (4 <=? i)
    by (destruct (Nat.ltb_spec i 4), (Nat.leb_spec 4 i); simpl; auto; lia).
  replace (negb (length df <=? S i)) with (S i <? length df)
    by (destruct (Nat.leb_spec (length df) (S i)),
                 (Nat.ltb_spec (S i) (length df)); simpl; auto; lia).
  reflexivity.
Qed.

Lemma no_zero_pair_nth (xs : list Q) :
  no_zero_pair xs = true ->
  forall j, S j < length xs ->
    qzero (nth j xs 0%Q) && qzero (nth (S j) xs 0%Q) = false.
Proof.
  induction xs as [|a r IH]; intros H j Hj; [simpl in Hj; lia|].
  destruct r as [|b r']; [simpl in Hj; lia|].
  change (negb (qzero a && qzero b) && no_zero_pair (b :: r') = true) in H.
  apply andb_prop in H. destruct H as [Hab Hr].
  destruct j as [|j].
  - simpl. now apply negb_true_iff in Hab.
  - change (qzero (nth j (b :: r') 0%Q) && qzero (nth (S j) (b :: r') 0%Q)
            = false).
    apply IH; auto. simpl in Hj |- *. lia.
Qed.

Lemma no_zero_pair_rows (xs : list Q) :
  no_zero_pair xs = true ->
  forall i, 4 <= i -> S i < length xs -> zero_after_zero xs i = false.
Proof.
  intros H i Hi Hn. destruct i as [|j]; [lia|].
  unfold zero_after_zero. apply no_zero_pair_nth; auto. lia.
Qed.

Lemma survivors_clean (df : list Observation) :
  5 <= length df ->
  (forall i, 4 <= i -> S i < length df ->
             zero_after_zero (prices df) i = false) ->
  filter (survives df) (seq 0 (length df)) = seq 4 (length df - 5).
Proof.
  intros Hn Hz.
  replace (length df) with (4 + ((length df - 5) + 1)) at 1 by lia.
  rewrite seq_app, seq_app, !filter_app.
  rewrite (filter_none _ (seq 0 4)), (filter_all _ (seq (0 + 4) _)),
    (filter_none _ (seq _ 1)).
  - simpl. now rewrite app_nil_r.
  - intros i Hi. apply in_seq in Hi. rewrite survives_spec.
    replace (S i <? length df) with false; [now rewrite andb_false_r|].
    symmetry. apply Nat.ltb_ge. lia.
  - intros i Hi. apply in_seq in Hi. rewrite survives_spec.
    rewrite Hz by lia. cbn [negb]. rewrite andb_true_r.
    apply andb_true_intro. split.
    + apply Nat.leb_le. lia.
    + apply Nat.ltb_lt. lia.
  - intros i Hi. apply in_seq in Hi. rewrite survives_spec.
    replace (4 <=? i) with false; [reflexivity|].
    symmetry. apply Nat.leb_gt. lia.
Qed.

Lemma timestamps_of_rows (df : list Observation) (a k : nat) :
  StronglySorted Z.lt (map timestamp df) ->
  a + k <= length df ->
  StronglySorted Z.lt (map r_timestamp (map (row_at df) (seq a k))).
Proof.
  intros Hs. revert a. induction k as [|k IH]; intros a Hk; simpl.
  - constructor.
  - constructor.
    + apply IH. lia.
    + rewrite map_map. apply Forall_forall. intros t Ht.
      apply in_map_iff in Ht. destruct Ht as [i [<- Hi]].
      apply in_seq in Hi. simpl. apply sorted_nth_lt; auto; lia.
Qed.

(** C1, as amended.  For a sequence of at least 10 observations listed with
    strictly increasing timestamps in which no row at the positions
    [4 .. n-2] has price 0 directly after a price 0, the frame [train]
    derives keeps exactly the rows at the positions [4 .. n-2], in timestamp
    order: [n - 5] feature rows and as many targets. *)
Theorem derive_training_row_count (obs : list Observation) :
  10 <= length obs ->
  StronglySorted Z.lt (map timestamp obs) ->
  (forall i, 4 <= i -> S i < length obs ->
             zero_after_zero (prices obs) i = false) ->
  let df := sort_values obs in
  let kept := dropna (add_columns df) in
  df = obs /\
  kept = map (row_at obs) (seq 4 (length obs - 5)) /\
  length (fst (_prepare_features df)) = length obs - 5 /\
  length (snd (_prepare_features df)) = length obs - 5 /\
  StronglySorted Z.lt (map r_timestamp kept).
Proof.
  intros Hn Hs Hz df kept. subst kept df.
  rewrite (sort_values_increasing_id _ Hs).
  assert (E : dropna (add_columns obs)
              = map (row_at obs) (seq 4 (length obs - 5))).
  { rewrite dropna_add_columns, survivors_clean; auto. lia. }
  unfold _prepare_features. simpl. rewrite E.
  repeat split.
  - now rewrite !length_map, length_seq.
  - now rewrite !length_map, length_seq.
  - apply timestamps_of_rows; auto. lia.
Qed.

Lemma ten_rows_increasing :
  StronglySorted Z.lt (map timestamp ten_rows).
Proof. repeat constructor. Qed.

Lemma derive_training_row_count_witness :
  10 <= length ten_rows /\
  StronglySorted Z.lt (map timestamp ten_rows) /\
  length (fst (_prepare_features (sort_values ten_rows))) = 5.
Proof.
  split; [simpl; lia|]. split; [exact ten_rows_increasing|].
  apply (derive_training_row_count ten_rows).
  - simpl; lia.
  - exact ten_rows_increasing.
  - intros i Hi Hn. apply no_zero_pair_rows.
    + reflexivity.
    + exact Hi.
    + unfold prices. rewrite length_map. exact Hn.
Defined.

(** C1 as stated fails: ten observations with strictly increasing
    timestamps, two neighbouring prices being 0, give 4 rows and not 5. *)
Lemma derive_training_row_count_zero_pair :
  10 <= length ten_rows_zero_pair /\
  StronglySorted Z.lt (map timestamp ten_rows_zero_pair) /\
  length (fst (_prepare_features (sort_values ten_rows_zero_pair))) = 4 /\
  length (fst (_prepare_features (sort_values ten_rows_zero_pair)))
  <> length ten_rows_zero_pair - 5.
Proof.
  split; [simpl; lia|]. split; [repeat constructor|].
  split; [reflexivity|]. vm_compute. discriminate.
Qed.

(** ** The price-change column *)

Lemma qzero_true (q : Q) : qzero q = true <-> (q == 0)%Q.
Proof. unfold qzero. apply Qeq_bool_iff. Qed.

Lemma qzero_false (q : Q) : qzero q = false <-> ~ (q == 0)%Q.
Proof.
  rewrite <- qzero_true. destruct (qzero q); split; intros; congruence.
Qed.

(** C4, as amended.  At every position [j+1] of the frame the price change
    is [price[j+1] / price[j] - 1]: the number
    [(price[j+1] - price[j]) / price[j]] when [price[j]] is not 0; an
    infinity, which [dropna] keeps, when [price[j]] is 0 and [price[j+1]]
    is not; NaN when both are 0.  The row survives exactly when it has a
    full 5-window and a next price and is not such a 0-after-0 row, and the
    feature rows of training and of inference are the surviving rows. *)
Theorem price_change_and_dropped_rows (df : list Observation) (j : nat) :
  S j < length df ->
  let prev := price (nth j df default_obs) in
  let cur := price (nth (S j) df default_obs) in
  let change := pct_change_at (prices df) (S j) in
  (~ (prev == 0)%Q ->
     exists q, change = Num q /\ (q == (cur - prev) / prev)%Q) /\
  ((prev == 0)%Q -> ~ (cur == 0)%Q -> exists sign, change = Inf sign) /\
  ((prev == 0)%Q -> (cur == 0)%Q -> change = NaN) /\
  (survives df (S j) = true <->
     4 <= S j /\ S (S j) < length df /\ ~ ((prev == 0)%Q /\ (cur == 0)%Q)) /\
  fst (_prepare_features df)
  = map (fun i => features (row_at df i))
        (filter (survives df) (seq 0 (length df))).
Proof.
  intros Hj prev cur change.
  assert (Eprev : nth j (prices df) 0%Q = prev).
  { unfold prices. change 0%Q with (price default_obs). apply map_nth. }
  assert (Ecur : nth (S j) (prices df) 0%Q = cur).
  { unfold prices. change 0%Q with (price default_obs). apply map_nth. }
  subst change. unfold pct_change_at, float_div. rewrite Eprev, Ecur.
  repeat split.
  - intros Hp. apply qzero_false in Hp. rewrite Hp. simpl.
    eexists; split; [reflexivity|].
    apply qzero_false in Hp. field. exact Hp.
  - intros Hp Hc. apply qzero_true in Hp. apply qzero_false in Hc.
    rewrite Hp, Hc. simpl. eexists; reflexivity.
  - intros Hp Hc. apply qzero_true in Hp. apply qzero_true in Hc.
    now rewrite Hp, Hc.
  - rewrite survives_spec in H. apply andb_prop in H. destruct H as [H _].
    apply andb_prop in H. destruct H as [H _]. now apply Nat.leb_le in H.
  - rewrite survives_spec in H. apply andb_prop in H. destruct H as [_ H].
    now apply Nat.ltb_lt in H.
  - intros [Hp Hc]. rewrite survives_spec in H.
    apply andb_prop in H. destruct H as [H _].
    apply andb_prop in H. destruct H as [_ H].
    unfold zero_after_zero in H. rewrite Eprev, Ecur in H.
    apply qzero_true in Hp. apply qzero_true in Hc.
    rewrite Hp, Hc in H. discriminate.
  - intros (H4 & Hn & Hz). rewrite survives_spec.
    unfold zero_after_zero. rewrite Eprev, Ecur.
    apply andb_true_intro. split; [apply andb_true_intro; split|].
    + now apply Nat.leb_le.
    + apply negb_true_iff. apply andb_false_iff.
      destruct (qzero prev) eqn:Ep; [|now left]. right.
      destruct (qzero cur) eqn:Ec; [|reflexivity].
      exfalso. apply Hz. split; now apply qzero_true.
    + now apply Nat.ltb_lt.
  - unfold _prepare_features. simpl.
    now rewrite dropna_add_columns, map_map.
Qed.

Lemma price_change_and_dropped_rows_witness :
  survives zero_then_up 5 = true <->
  4 <= 5 /\ 6 < length zero_then_up /\
  ~ ((price (nth 4 zero_then_up default_obs) == 0)%Q /\
     (price (nth 5 zero_then_up default_obs) == 0)%Q).
Proof.
  apply (price_change_and_dropped_rows zero_then_up 4).
  simpl; lia.
Defined.

(** C4 as stated fails: the price before position 5 is 0, yet the row at
    position 5 is kept, with an infinite price change, as the second
    feature row. *)
Lemma zero_previous_price_row_kept :
  (price (nth 4 zero_then_up default_obs) == 0)%Q /\
  survives zero_then_up 5 = true /\
  nth_error (fst (_prepare_features (sort_values zero_then_up))) 1
  = Some (features (row_at zero_then_up 5)) /\
  f_price_change_1d (features (row_at zero_then_up 5)) = Inf true.
Proof. repeat split; reflexivity. Qed.

(** ** train and predict *)

Section ModelFacts.

Context {sk : Sklearn}.

Lemma train_too_few_rows (m : StockPriceModel sk) (h : list Observation) :
  h <> [] ->
  length (fst (_prepare_features (sort_values h))) < 10 ->
  train m h = (TrainError "Not enough data for training", m).
Proof.
  intros Hne Hlen. unfold train.
  destruct h as [|o h']; [congruence|].
  destruct (_prepare_features (sort_values (o :: h'))) as [X y].
  simpl in Hlen. apply Nat.ltb_lt in Hlen. now rewrite Hlen.
Qed.

(** A [train] that returns the error dict has not touched the object. *)
Lemma train_error_unchanged (m m' : StockPriceModel sk) h msg :
  train m h = (TrainError msg, m') -> m' = m.
Proof.
  unfold train. destruct h as [|o h']; [discriminate|].
  destruct (_prepare_features (sort_values (o :: h'))) as [X y].
  destruct (length X <? 10); [congruence|].
  destruct (fit_transform sk X) as [[sc Xs]|]; [|discriminate].
  destruct (fit sk Xs y); [|discriminate].
  destruct (predict _ _); discriminate.
Qed.

(** A [train] that reports success leaves both estimators fitted. *)
Lemma train_success_fitted (m m' : StockPriceModel sk) h a b c :
  train m h = (TrainSuccess a b c, m') ->
  exists f sc, m_model m' = Some f /\ m_scaler m' = Some sc.
Proof.
  unfold train. destruct h as [|o h']; [discriminate|].
  destruct (_prepare_features (sort_values (o :: h'))) as [X y].
  destruct (length X <? 10); [discriminate|].
  destruct (fit_transform sk X) as [[sc Xs]|]; [|discriminate].
  destruct (fit sk Xs y) as [f|]; [|discriminate].
  destruct (predict _ _); try discriminate.
  intros E. inversion E; subst. simpl. eauto.
Qed.

Lemma predict_unfitted_scaler (m : StockPriceModel sk) seq :
  m_scaler m = None ->
  fst (_prepare_features (sort_values seq)) <> [] ->
  predict m seq = PredictError "Model not yet trained".
Proof.
  intros Hsc HX. unfold predict.
  destruct seq as [|o r].
  - exfalso. apply HX. reflexivity.
  - destruct (iloc_last _) eqn:E.
    + now rewrite Hsc.
    + exfalso. apply HX. unfold iloc_last in E.
      apply nth_error_None in E.
      destruct (fst (_prepare_features (sort_values (o :: r)))); [reflexivity|].
      simpl in E. lia.
Qed.


(** C7.  After a [train] that reports success, [predict] on the same
    sequence does not answer "Model not yet trained", nor does the forest
    raise [NotFittedError]. *)
Theorem predict_after_train_is_fitted
    (m m' : StockPriceModel sk) (h : list Observation)
    (a b : Q) (c : nat) :
  train m h = (TrainSuccess a b c, m') ->
  predict m' h <> PredictError "Model not yet trained" /\
  predict m' h <> PredictRaised NotFittedError.
Proof.
  intros Ht. destruct (train_success_fitted _ _ _ _ _ _ Ht) as (f & sc & Hf & Hs).
  unfold predict. destruct h as [|o r]; [split; discriminate|].
  destruct (iloc_last _); [|split; discriminate].
  rewrite Hs, Hf.
  destruct (transform sk sc _); [|split; discriminate].
  destruct (forest_predict sk f _); split; discriminate.
Qed.

(** C5, as amended.  On a non-empty sequence whose derived frame has fewer
    than 10 rows, [train] returns the error dict, which holds the fixed
    message and nothing else, and leaves the model as it was. *)
Theorem train_insufficient_data (m : StockPriceModel sk)
    (h : list Observation) :
  h <> [] ->
  length (fst (_prepare_features (sort_values h))) < 10 ->
  train m h = (TrainError "Not enough data for training", m).
Proof. apply train_too_few_rows. Qed.

End ModelFacts.


Lemma predict_after_train_is_fitted_witness :
  let m' := snd (train (sk:=toy_sklearn) (init "BBB") twenty_five_rows) in
  predict m' twenty_five_rows <> PredictError "Model not yet trained" /\
  predict m' twenty_five_rows <> PredictRaised NotFittedError.
Proof.
  intros m'.
  apply (predict_after_train_is_fitted (sk:=toy_sklearn)
           (init "BBB") m' twenty_five_rows
           (inject_Z 124) (inject_Z 123) 20).
  vm_compute. reflexivity.
Defined.

Lemma train_insufficient_data_witness :
  train (sk:=toy_sklearn) (init "AAA") ten_rows
  = (TrainError "Not enough data for training", init "AAA").
Proof.
  apply (train_insufficient_data (sk:=toy_sklearn) (init "AAA") ten_rows).
  - discriminate.
  - vm_compute. lia.
Defined.

(** C5 as stated fails: one observation gives no valid row and ten give
    five, yet [train] returns the same dict for both, so the count cannot be
    read off the result; and on the empty list [train] raises instead. *)
Lemma train_error_carries_no_count :
  fst (train (sk:=toy_sklearn) (init "AAA") [])
  = TrainRaised (KeyError "timestamp") /\
  ~ (exists count_of : TrainResult -> nat,
       forall h : list Observation,
         h <> [] ->
         length (fst (_prepare_features (sort_values h))) < 10 ->
         count_of (fst (train (sk:=toy_sklearn) (init "AAA") h))
         = length (fst (_prepare_features (sort_values h)))).
Proof.
  split; [reflexivity|].
  intros [count_of H].
  assert (T1 : train (sk:=toy_sklearn) (init "AAA") one_row
               = (TrainError "Not enough data for training", init "AAA"))
    by (apply train_too_few_rows; [discriminate | vm_compute; lia]).
  assert (T10 : train (sk:=toy_sklearn) (init "AAA") ten_rows
                = (TrainError "Not enough data for training", init "AAA"))
    by (apply train_too_few_rows; [discriminate | vm_compute; lia]).
  assert (H1 := H one_row ltac:(discriminate) ltac:(vm_compute; lia)).
  assert (H10 := H ten_rows ltac:(discriminate) ltac:(vm_compute; lia)).
  rewrite T1 in H1. rewrite T10 in H10. simpl fst in H1, H10.
  change (count_of (TrainError "Not enough data for training") = 0) in H1.
  change (count_of (TrainError "Not enough data for training") = 5) in H10.
  congruence.
Qed.

(** ** The dicts *)

Section DictFacts.

Context {V : Type}.

Lemma dict_get_set_same (k : string) (v : V) (d : dict V) :
  dict_get k (dict_set k v d) = Some v.
Proof.
  induction d as [|[k' v'] r IH]; simpl.
  - now rewrite String.eqb_refl.
  - destruct (String.eqb k k') eqn:E; simpl.
    + now rewrite String.eqb_refl.
    + now rewrite E.
Qed.

Lemma dict_get_set_other (k k' : string) (v : V) (d : dict V) :
  k <> k' -> dict_get k (dict_set k' v d) = dict_get k d.
Proof.
  intros Hne. induction d as [|[k'' v''] r IH]; simpl.
  - apply String.eqb_neq in Hne. now rewrite Hne.
  - destruct (String.eqb k' k'') eqn:E; simpl.
    + apply String.eqb_eq in E. subst k''.
      apply String.eqb_neq in Hne. now rewrite Hne.
    + now rewrite IH.
Qed.

Lemma dict_set_twice (k : string) (v v' : V) (d : dict V) :
  dict_set k v (dict_set k v' d) = dict_set k v d.
Proof.
  induction d as [|[k'' v''] r IH]; simpl.
  - now rewrite String.eqb_refl.
  - destruct (String.eqb k k'') eqn:E; simpl.
    + now rewrite String.eqb_refl.
    + now rewrite E, IH.
Qed.

End DictFacts.

(** ** The request handlers *)

Section ServiceFacts.

Context {sk : Sklearn}.

(** C8.  A request whose symbol is absent or empty, or whose data is absent
    or empty, is answered with the 400 error and leaves the model registry,
    the history store and the rest of the state exactly as they were. *)
Theorem invalid_ingest_rejected (payload : Payload) (st : Service sk) :
  req_symbol payload = None \/ req_symbol payload = Some ""%string \/
  req_data payload = None \/ req_data payload = Some [] ->
  predict_endpoint payload st = (BadRequest "Symbol and data required", st).
Proof.
  intros H. unfold predict_endpoint.
  destruct H as [H|[H|[H|H]]]; rewrite H; simpl;
    try reflexivity; now rewrite orb_true_r.
Qed.

Lemma predict_endpoint_stores (s : string) (D : list Observation)
    (st : Service sk) :
  s <> ""%string -> D <> [] ->
  data_store (snd (predict_endpoint (post s D) st))
  = data_store (data_store_replace s D st).
Proof.
  intros Hs HD. unfold predict_endpoint, post. simpl.
  apply String.eqb_neq in Hs. rewrite Hs.
  destruct D as [|o D']; [congruence|]. simpl.
  destruct (dict_get s (models st)); [reflexivity|].
  destruct (train (sk:=sk) (init s) (o :: D')) as [[msg|a b c|e] m'];
    reflexivity.
Qed.

Lemma data_store_replace_twice (s : string) (D : list Observation)
    (st : Service sk) :
  data_store_replace s D (data_store_replace s D st)
  = data_store_replace s D st.
Proof. unfold data_store_replace. simpl. now rewrite dict_set_twice. Qed.

(** C9.  Storing a batch [D] under a symbol makes [D] the stored sequence,
    whatever was stored before; storing it a second time changes nothing;
    [get_data] returns the stored batch as it is; and one or two valid
    ingest requests leave exactly this store. *)
Theorem history_is_replaced (s : string) (D : list Observation)
    (st : Service sk) :
  let st1 := data_store_replace s D st in
  let st2 := data_store_replace s D st1 in
  dict_get s (data_store st1) = Some D /\
  st2 = st1 /\
  get_data s st1 = History D /\
  get_data s st2 = History D /\
  (s <> ""%string -> D <> [] ->
   let after1 := snd (predict_endpoint (post s D) st) in
   let after2 := snd (predict_endpoint (post s D) after1) in
   data_store after1 = data_store st1 /\
   data_store after2 = data_store st1 /\
   get_data s after1 = History D /\
   get_data s after2 = History D).
Proof.
  intros st1 st2.
  assert (E1 : dict_get s (data_store st1) = Some D)
    by (unfold st1; simpl; apply dict_get_set_same).
  assert (E2 : st2 = st1) by apply data_store_replace_twice.
  assert (G1 : get_data s st1 = History D)
    by (unfold get_data; now rewrite E1).
  split; [exact E1|]. split; [exact E2|]. split; [exact G1|].
  split; [now rewrite E2|].
  intros Hs HD after1 after2.
  assert (A1 : data_store after1 = data_store st1)
    by (apply predict_endpoint_stores; auto).
  assert (A2 : data_store after2 = data_store st1).
  { unfold after2. rewrite predict_endpoint_stores by auto.
    unfold data_store_replace at 1. cbn [data_store]. rewrite A1.
    change (data_store st2 = data_store st1). now rewrite E2. }
  split; [exact A1|]. split; [exact A2|].
  unfold get_data. rewrite A1, A2, E1. auto.
Qed.


End ServiceFacts.

Lemma invalid_ingest_rejected_witness :
  predict_endpoint (mkPayload (Some ""%string) (Some ten_rows))
                   (empty_service toy_sklearn)
  = (BadRequest "Symbol and data required", empty_service toy_sklearn).
Proof.
  apply (invalid_ingest_rejected (sk:=toy_sklearn)).
  right; left; reflexivity.
Defined.

Lemma history_is_replaced_witness :
  let after1 := snd (predict_endpoint (post "AAA" ten_rows)
                       (empty_service toy_sklearn)) in
  let after2 := snd (predict_endpoint (post "AAA" ten_rows) after1) in
  get_data "AAA" after1 = History ten_rows /\
  get_data "AAA" after2 = History ten_rows.
Proof.
  intros after1 after2.
  destruct (history_is_replaced (sk:=toy_sklearn) "AAA" ten_rows
              (empty_service toy_sklearn)) as (_ & _ & _ & _ & H).
  apply H; discriminate.
Defined.



(** The same run with any estimator: the training of the all-zero batch
    stops before the first call to the library. *)
Lemma unfitted_entry_with_any_estimator (sk : Sklearn) :
  dict_get "ZZZ"
    (models (service (run (start sk) [Post (post "ZZZ" twenty_zero); Tick])))
  = Some (init "ZZZ").
Proof. reflexivity. Qed.

(** ** The background thread *)

Section SchedulerFacts.

Context {sk : Sklearn}.

Lemma dict_mem_set {V} (s k : string) (v : V) (d : dict V) :
  dict_mem s (dict_set k v d) = String.eqb s k || dict_mem s d.
Proof.
  unfold dict_mem. destruct (String.eqb_spec s k) as [->|Hne]; simpl.
  - now rewrite dict_get_set_same.
  - now rewrite dict_get_set_other.
Qed.

Lemma train_items_cons (s : string) (d : list Observation)
    (rest : list (string * list Observation)) (st : Service sk) :
  train_items ((s, d) :: rest) st
  = if 20 <=? length d then
      let m := match dict_get s (models st) with
               | Some m => m
               | None => init s
               end in
      let '(result, m') := train m d in
      let models2 := dict_set s m' (models st) in
      match result with
      | TrainRaised e =>
          (Some e, mkService sk models2 (data_store st) (printed st))
      | _ =>
          train_items rest
            (mkService sk models2 (data_store st)
               (printed st ++ [(s, length d)]))
      end
    else train_items rest st.
Proof. reflexivity. Qed.

(** A symbol whose [train] returns the error dict is passed over: the loop
    prints its line and goes on with the remaining symbols. *)
Lemma train_items_error_continues (s : string) (d : list Observation)
    (rest : list (string * list Observation)) (st : Service sk)
    (m : StockPriceModel sk) (msg : string) :
  20 <= length d ->
  m = match dict_get s (models st) with Some m => m | None => init s end ->
  fst (train m d) = TrainError msg ->
  train_items ((s, d) :: rest) st
  = train_items rest
      (mkService sk (dict_set s m (models st)) (data_store st)
         (printed st ++ [(s, length d)])).
Proof.
  intros Hd Hm Ht. rewrite train_items_cons.
  apply Nat.leb_le in Hd. rewrite Hd. cbv zeta. rewrite <- Hm.
  destruct (train m d) as [r m'] eqn:E. simpl in Ht. subst r.
  apply train_error_unchanged in E. now subst m'.
Qed.

Lemma train_items_completes (items : list (string * list Observation)) :
  (forall s d, In (s, d) items -> 20 <= length d -> never_raises sk d) ->
  forall st : Service sk,
  exists st',
    train_items items st = (None, st') /\
    data_store st' = data_store st /\
    (forall s, dict_mem s (models st) = true ->
               dict_mem s (models st') = true) /\
    (forall x, In x (printed st) -> In x (printed st')) /\
    (forall s d, In (s, d) items -> 20 <= length d ->
       dict_mem s (models st') = true /\ In (s, length d) (printed st')).
Proof.
  induction items as [|[s d] rest IH]; intros Hsafe st.
  - exists st. simpl. split; [reflexivity|]. split; [reflexivity|].
    split; [auto|]. split; [auto|]. intros s d [].
  - assert (Hrest : forall s0 d0, In (s0, d0) rest -> 20 <= length d0 ->
                                  never_raises sk d0)
      by (intros s0 d0 Hin Hd0; apply (Hsafe s0 d0);
          [right; exact Hin | exact Hd0]).
    rewrite train_items_cons.
    destruct (Nat.leb_spec 20 (length d)) as [Hd|Hd].
    + cbv zeta.
      set (m := match dict_get s (models st) with
                | Some m => m | None => init s end).
      destruct (train m d) as [r m'] eqn:Et.
      assert (Hr : forall e, r <> TrainRaised e).
      { intros e. specialize (Hsafe s d (or_introl eq_refl) Hd m e).
        now rewrite Et in Hsafe. }
      set (st1 := mkService sk (dict_set s m' (models st)) (data_store st)
                    (printed st ++ [(s, length d)])).
      destruct (IH Hrest st1) as (st' & E & Hds & Hmem & Hpr & Hall).
      assert (Hstep : exists st'0,
                 train_items rest st1 = (None, st'0) /\
                 data_store st'0 = data_store st /\
                 (forall s0, dict_mem s0 (models st) = true ->
                             dict_mem s0 (models st'0) = true) /\
                 (forall x, In x (printed st) -> In x (printed st'0)) /\
                 (forall s0 d0, In (s0, d0) ((s, d) :: rest) ->
                    20 <= length d0 ->
                    dict_mem s0 (models st'0) = true /\
                    In (s0, length d0) (printed st'0))).
      { exists st'. split; [exact E|]. split; [exact Hds|]. split; [|split].
        - intros s0 H0. apply Hmem. simpl. rewrite dict_mem_set, H0.
          apply orb_true_r.
        - intros x Hx. apply Hpr. simpl. apply in_or_app. now left.
        - intros s0 d0 [H0|H0] Hd0.
          + inversion H0; subst. split.
            * apply Hmem. simpl. rewrite dict_mem_set, String.eqb_refl.
              reflexivity.
            * apply Hpr. simpl. apply in_or_app. right. now left.
          + now apply Hall. }
      destruct r as [msg|a b c|e]; [exact Hstep|exact Hstep|].
      exfalso. now apply (Hr e).
    + destruct (IH Hrest st) as (st' & E & Hds & Hmem & Hpr & Hall).
      exists st'. repeat split; auto.
      * destruct H as [H|H]; [inversion H; subst; lia|].
        now apply (Hall s0 d0).
      * destruct H as [H|H]; [inversion H; subst; lia|].
        now apply (Hall s0 d0).
Qed.

Lemma tick_step_alive (st : Service sk) :
  (forall s d, In (s, d) (data_store st) -> 20 <= length d ->
               never_raises sk d) ->
  exists st',
    step (mkProcess sk st true) Tick = mkProcess sk st' true /\
    data_store st' = data_store st /\
    (forall s d, In (s, d) (data_store st) -> 20 <= length d ->
       dict_mem s (models st') = true /\ In (s, length d) (printed st')).
Proof.
  intros Hsafe.
  destruct (train_items_completes _ Hsafe st)
    as (st' & E & Hds & _ & _ & Hall).
  exists st'. unfold step, tick. cbn [scheduler_alive service].
  rewrite E. auto.
Qed.


End SchedulerFacts.

Lemma two_symbols_never_raise (s : string) (d : list Observation) :
  In (s, d) (data_store two_symbols) -> 20 <= length d ->
  never_raises toy_sklearn d.
Proof.
  intros Hin _.
  change (data_store two_symbols)
    with [("ZZZ"%string, twenty_zero); ("BBB"%string, twenty_five_rows)] in Hin.
  destruct Hin as [H|[H|[]]]; inversion H; subst; intros m e.
  - rewrite train_too_few_rows; [discriminate|discriminate|vm_compute; lia].
  - destruct m as [sym f sc]. vm_compute. discriminate.
Qed.



(** ** The row used at inference *)

Lemma survives_not_last (df : list Observation) (i : nat) :
  survives df i = true -> 4 <= i /\ S i < length df.
Proof.
  rewrite survives_spec. intros H.
  apply andb_prop in H. destruct H as [H Hn].
  apply andb_prop in H. destruct H as [H4 _].
  apply Nat.leb_le in H4. apply Nat.ltb_lt in Hn. auto.
Qed.

Lemma iloc_last_app (X : list FeatureRow) (x : FeatureRow) :
  iloc_last (X ++ [x]) = Some x.
Proof.
  unfold iloc_last. rewrite length_app. simpl.
  replace (length X + 1 - 1) with (length X) by lia.
  rewrite nth_error_app2 by lia. now rewrite Nat.sub_diag.
Qed.

Lemma features_short (df : list Observation) :
  length df < 6 -> fst (_prepare_features df) = [].
Proof.
  intros Hn. unfold _prepare_features. simpl.
  rewrite dropna_add_columns, filter_none; [reflexivity|].
  intros i _. destruct (survives df i) eqn:E; [|reflexivity].
  apply survives_not_last in E. lia.
Qed.

Lemma features_last_row (df : list Observation) :
  6 <= length df ->
  zero_after_zero (prices df) (length df - 2) = false ->
  iloc_last (fst (_prepare_features df))
  = Some (features (row_at df (length df - 2))).
Proof.
  intros Hn Hz. unfold _prepare_features. simpl.
  rewrite dropna_add_columns.
  replace (length df) with ((length df - 2) + (1 + 1)) at 1 by lia.
  rewrite seq_app, seq_app, !filter_app. simpl seq. simpl filter.
  assert (E2 : survives df (length df - 2) = true).
  { rewrite survives_spec, Hz. cbn [negb]. rewrite andb_true_r.
    apply andb_true_intro. split.
    - apply Nat.leb_le. lia.
    - apply Nat.ltb_lt. lia. }
  assert (E1 : survives df (length df - 2 + 1) = false).
  { destruct (survives df (length df - 2 + 1)) eqn:E; [|reflexivity].
    apply survives_not_last in E. lia. }
  rewrite E2, E1. rewrite app_nil_r, !map_app. simpl.
  apply iloc_last_app.
Qed.

Section InferenceFacts.

Context {sk : Sklearn}.


End InferenceFacts.

Lemma ten_rows_ordered :
  StronglySorted Z.le (map timestamp ten_rows).
Proof. repeat constructor; vm_compute; discriminate. Qed.



(* ================================================================== *)
(** * Further properties of the pipeline and of the model *)

(** ** How many rows survive *)

Lemma survivors_in_window (df : list Observation) :
  5 <= length df ->
  filter (survives df) (seq 0 (length df))
  = filter (survives df) (seq 4 (length df - 5)).
Proof.
  intros Hn.
  replace (length df) with (4 + ((length df - 5) + 1)) at 1 by lia.
  rewrite seq_app, seq_app, !filter_app.
  rewrite (filter_none _ (seq 0 4)), (filter_none _ (seq _ 1)).
  - simpl. now rewrite app_nil_r.
  - intros i Hi. apply in_seq in Hi.
    destruct (survives df i) eqn:E; [|reflexivity].
    apply survives_not_last in E. lia.
  - intros i Hi. apply in_seq in Hi.
    destruct (survives df i) eqn:E; [|reflexivity].
    apply survives_not_last in E. lia.
Qed.

Lemma rows_at_most (df : list Observation) :
  length (fst (_prepare_features df)) <= length df - 5.
Proof.
  unfold _prepare_features. simpl.
  rewrite dropna_add_columns, length_map, length_map.
  destruct (Nat.le_gt_cases 5 (length df)) as [Hn|Hn].
  - rewrite survivors_in_window by exact Hn.
    etransitivity; [apply filter_length_le|]. now rewrite length_seq.
  - rewrite filter_none; [simpl; lia|].
    intros i _. destruct (survives df i) eqn:E; [|reflexivity].
    apply survives_not_last in E. lia.
Qed.

Lemma insert_by_timestamp_Forall (P : Observation -> Prop) o l :
  P o -> Forall P l -> Forall P (insert_by_timestamp o l).
Proof.
  intros Ho. induction 1 as [|x r Hx Hr IH]; simpl.
  - constructor; auto.
  - destruct (timestamp o <=? timestamp x)%Z; repeat constructor; auto.
Qed.

Lemma sort_values_Forall (P : Observation -> Prop) l :
  Forall P l -> Forall P (sort_values l).
Proof.
  unfold sort_values. induction 1 as [|x r Hx Hr IH]; simpl.
  - constructor.
  - now apply insert_by_timestamp_Forall.
Qed.

Lemma nonzero_no_zero_after_zero (df : list Observation) (i : nat) :
  Forall (fun o => ~ (price o == 0)%Q) df ->
  1 <= i -> i < length df ->
  zero_after_zero (prices df) i = false.
Proof.
  intros Hall Hi Hn. destruct i as [|j]; [lia|].
  unfold zero_after_zero.
  replace (qzero (nth j (prices df) 0%Q)) with false; [reflexivity|].
  symmetry. apply qzero_false.
  unfold prices. change 0%Q with (price default_obs). rewrite map_nth.
  rewrite Forall_forall in Hall. apply Hall, nth_In. lia.
Qed.

Lemma rows_nonzero_count (h : list Observation) :
  Forall (fun o => ~ (price o == 0)%Q) h ->
  5 <= length h ->
  dropna (add_columns (sort_values h))
  = map (row_at (sort_values h)) (seq 4 (length h - 5)).
Proof.
  intros Hall Hn.
  assert (Hlen := sort_values_length h).
  assert (Hs : Forall (fun o => ~ (price o == 0)%Q) (sort_values h))
    by now apply sort_values_Forall.
  rewrite dropna_add_columns, survivors_clean, Hlen; auto; [lia|].
  intros i Hi Hi'. apply nonzero_no_zero_after_zero; auto; lia.
Qed.

(** X1.  Whatever the order and the timestamps of the input, when no price
    is 0 the frame keeps all the rows but the first four and the last: a
    sequence of [n >= 5] observations gives exactly [n - 5] feature rows and
    [n - 5] targets. *)
Theorem rows_of_nonzero_prices (h : list Observation) :
  Forall (fun o => ~ (price o == 0)%Q) h ->
  5 <= length h ->
  length (fst (_prepare_features (sort_values h))) = length h - 5 /\
  length (snd (_prepare_features (sort_values h))) = length h - 5 /\
  fst (_prepare_features (sort_values h))
  = map (fun i => features (row_at (sort_values h) i)) (seq 4 (length h - 5)).
Proof.
  intros Hall Hn. unfold _prepare_features. simpl.
  rewrite (rows_nonzero_count h Hall Hn).
  rewrite !length_map, length_seq, map_map. auto.
Qed.

Lemma ten_rows_nonzero : Forall (fun o => ~ (price o == 0)%Q) ten_rows.
Proof. repeat constructor; discriminate. Qed.

Lemma rows_of_nonzero_prices_witness :
  length (fst (_prepare_features (sort_values (rev ten_rows)))) = 5.
Proof.
  apply (rows_of_nonzero_prices (rev ten_rows)).
  - apply Forall_rev. exact ten_rows_nonzero.
  - simpl; lia.
Defined.

(** ** The outcomes of train *)

Section TrainFacts.

Context {sk : Sklearn}.

(** X2.  [train] returns the error dict exactly when the input is not empty
    and its frame has fewer than 10 rows; the dict then holds the one fixed
    message.  So whether a training is refused depends on the data alone,
    never on the model it is called on. *)
Theorem train_error_iff (m : StockPriceModel sk) (h : list Observation)
    (msg : string) :
  fst (train m h) = TrainError msg <->
  h <> [] /\
  length (fst (_prepare_features (sort_values h))) < 10 /\
  msg = "Not enough data for training"%string.
Proof.
  split.
  - unfold train. destruct h as [|o r]; [discriminate|].
    destruct (_prepare_features (sort_values (o :: r))) as [X y]. simpl.
    destruct (Nat.ltb_spec (length X) 10) as [Hlt|Hge].
    + simpl. intros E. inversion E. repeat split; auto. discriminate.
    + destruct (fit_transform sk X) as [[sc Xs]|]; [|discriminate].
      destruct (fit sk Xs y); [|discriminate].
      destruct (predict _ _); discriminate.
  - intros (Hne & Hlen & ->). now rewrite train_too_few_rows.
Qed.



End TrainFacts.



Lemma Forall_skipn_keep {A} (P : A -> Prop) (n : nat) (l : list A) :
  Forall P l -> Forall P (skipn n l).
Proof.
  revert l. induction n as [|n IH]; intros l H; simpl; [exact H|].
  destruct l as [|a r]; [constructor|]. inversion H; subst. now apply IH.
Qed.

Lemma iloc_last_some (X : list FeatureRow) :
  X <> [] -> exists x, iloc_last X = Some x.
Proof.
  intros HX. unfold iloc_last.
  destruct (nth_error X (length X - 1)) eqn:E; [eauto|].
  apply nth_error_None in E. destruct X; [congruence|]. simpl in E. lia.
Qed.

Section CleanData.

Context {sk : Sklearn}.

(** X5.  On 15 or more observations none of which has price 0, in any
    order, [train] is never refused for lack of data and never fails on its
    own preview prediction: either it reports success on [n - 5] rows or the
    library raised. *)
Theorem train_on_nonzero_prices (m : StockPriceModel sk)
    (h : list Observation) :
  Forall (fun o => ~ (price o == 0)%Q) h ->
  15 <= length h ->
  (exists a b, fst (train m h) = TrainSuccess a b (length h - 5)) \/
  fst (train m h) = TrainRaised LibraryError.
Proof.
  intros Hall Hn.
  assert (HX : length (fst (_prepare_features (sort_values h)))
               = length h - 5).
  { unfold _prepare_features. simpl.
    rewrite (rows_nonzero_count h Hall) by lia.
    now rewrite !length_map, length_seq. }
  assert (Hten : length (last10 h) = 10)
    by (unfold last10; rewrite length_skipn; lia).
  assert (Hall10 : Forall (fun o => ~ (price o == 0)%Q) (last10 h))
    by (apply Forall_skipn_keep; exact Hall).
  assert (HX10 : length (fst (_prepare_features (sort_values (last10 h))))
                 = length (last10 h) - 5).
  { unfold _prepare_features. simpl.
    rewrite (rows_nonzero_count (last10 h) Hall10) by lia.
    now rewrite !length_map, length_seq. }
  unfold train. destruct h as [|o r]; [simpl in Hn; lia|].
  destruct (_prepare_features (sort_values (o :: r))) as [X y].
  simpl fst in HX.
  replace (length X <? 10) with false
    by (symmetry; apply Nat.ltb_ge; lia).
  destruct (fit_transform sk X) as [[sc Xs]|]; [|now right].
  destruct (fit sk Xs y) as [f|]; [|now right].
  unfold predict.
  destruct (last10 (o :: r)) as [|o' r'] eqn:El; [discriminate|].
  destruct (iloc_last_some (fst (_prepare_features (sort_values (o' :: r')))))
    as [x Hx].
  { intros E. rewrite E in HX10. rewrite Hten in HX10. discriminate. }
  rewrite Hx. cbn [m_scaler m_model].
  destruct (transform sk sc x) as [xs|]; [|now right].
  destruct (forest_predict sk f xs) as [q|]; [|now right].
  left. simpl. rewrite HX. eauto.
Qed.

End CleanData.

Lemma twenty_five_rows_nonzero :
  Forall (fun o => ~ (price o == 0)%Q) twenty_five_rows.
Proof. repeat constructor; discriminate. Qed.

Lemma train_on_nonzero_prices_witness :
  (exists a b, fst (train (sk:=toy_sklearn) (init "BBB") twenty_five_rows)
               = TrainSuccess a b 20) \/
  fst (train (sk:=toy_sklearn) (init "BBB") twenty_five_rows)
  = TrainRaised LibraryError.
Proof.
  apply (train_on_nonzero_prices (sk:=toy_sklearn) (init "BBB")
           twenty_five_rows).
  - exact twenty_five_rows_nonzero.
  - simpl; lia.
Defined.

(** ** The order of the submitted observations *)

Lemma insert_by_timestamp_swap (a b : Observation) (l : list Observation) :
  timestamp a <> timestamp b ->
  insert_by_timestamp a (insert_by_timestamp b l)
  = insert_by_timestamp b (insert_by_timestamp a l).
Proof.
  intros Hne. induction l as [|x r IH]; simpl.
  - destruct (Z.leb_spec (timestamp a) (timestamp b)),
             (Z.leb_spec (timestamp b) (timestamp a)); auto; lia.
  - destruct (Z.leb_spec (timestamp b) (timestamp x)) as [Hb|Hb],
             (Z.leb_spec (timestamp a) (timestamp x)) as [Ha|Ha]; simpl.
    + destruct (Z.leb_spec (timestamp a) (timestamp b)),
               (Z.leb_spec (timestamp b) (timestamp a)); simpl;
        try lia; auto.
      * destruct (Z.leb_spec (timestamp b) (timestamp x)); [auto|lia].
      * destruct (Z.leb_spec (timestamp a) (timestamp x)); [auto|lia].
    + destruct (Z.leb_spec (timestamp a) (timestamp b)); [lia|].
      destruct (Z.leb_spec (timestamp a) (timestamp x)); [lia|].
      destruct (Z.leb_spec (timestamp b) (timestamp x)); [auto|lia].
    + destruct (Z.leb_spec (timestamp b) (timestamp a)); [lia|].
      destruct (Z.leb_spec (timestamp b) (timestamp x)); [lia|].
      destruct (Z.leb_spec (timestamp a) (timestamp x)); [auto|lia].
    + destruct (Z.leb_spec (timestamp a) (timestamp x)); [lia|].
      destruct (Z.leb_spec (timestamp b) (timestamp x)); [lia|].
      now rewrite IH.
Qed.

Lemma sort_values_permutation (l1 l2 : list Observation) :
  Permutation l1 l2 ->
  NoDup (map timestamp l1) ->
  sort_values l1 = sort_values l2.
Proof.
  unfold sort_values.
  induction 1 as [|x l l' Hp IH|x y l|l l' l'' Hp1 IH1 Hp2 IH2];
    intros Hnd; simpl.
  - reflexivity.
  - inversion Hnd; subst. now rewrite IH.
  - apply insert_by_timestamp_swap.
    inversion Hnd as [|? ? Hy _]; subst. simpl in Hy. intros E. apply Hy.
    now left.
  - rewrite IH1 by exact Hnd. apply IH2.
    eapply Permutation_NoDup; [|exact Hnd]. now apply Permutation_map.
Qed.

(** X6.  With distinct timestamps the order in which the observations are
    submitted does not matter to [predict]: two lists holding the same
    observations get the same answer from the same model. *)
Theorem predict_order_independent {sk : Sklearn} (m : StockPriceModel sk)
    (h1 h2 : list Observation) :
  Permutation h1 h2 ->
  NoDup (map timestamp h1) ->
  predict m h1 = predict m h2.
Proof.
  intros Hp Hnd. unfold predict.
  rewrite (sort_values_permutation h1 h2 Hp Hnd).
  destruct h1 as [|o1 r1], h2 as [|o2 r2]; auto.
  - apply Permutation_nil in Hp. discriminate.
  - apply Permutation_sym, Permutation_nil in Hp. discriminate.
Qed.

Lemma twenty_five_rows_distinct : NoDup (map timestamp twenty_five_rows).
Proof. vm_compute. repeat constructor; simpl; intuition discriminate. Qed.

Lemma predict_order_independent_witness :
  let m := snd (train (sk:=toy_sklearn) (init "BBB") twenty_five_rows) in
  predict m twenty_five_rows = predict m (rev twenty_five_rows).
Proof.
  intros m.
  apply (predict_order_independent m twenty_five_rows (rev twenty_five_rows)).
  - apply Permutation_rev.
  - exact twenty_five_rows_distinct.
Defined.

(** ** Rows of a frame and of its extension *)

Lemma rolling_mean_at_app (xs ys : list Q) (i : nat) :
  i < length xs ->
  rolling_mean_at 5 (xs ++ ys) i = rolling_mean_at 5 xs i.
Proof.
  intros Hi. unfold rolling_mean_at.
  destruct (Nat.ltb_spec (i + 1) 5) as [Hlt|Hge]; [reflexivity|].
  rewrite skipn_app.
  replace (i + 1 - 5 - length xs) with 0 by lia. simpl skipn at 2.
  rewrite firstn_app.
  replace (5 - length (skipn (i + 1 - 5) xs)) with 0
    by (rewrite length_skipn; lia).
  simpl firstn at 2. now rewrite app_nil_r.
Qed.

Lemma pct_change_at_app (xs ys : list Q) (i : nat) :
  i < length xs ->
  pct_change_at (xs ++ ys) i = pct_change_at xs i.
Proof.
  intros Hi. destruct i as [|j]; [reflexivity|].
  unfold pct_change_at. now rewrite !app_nth1 by lia.
Qed.

Lemma row_at_app (df extra : list Observation) (i : nat) :
  S i < length df ->
  row_at (df ++ extra) i = row_at df i.
Proof.
  intros Hi.
  assert (Hp : length (prices df) = length df)
    by (unfold prices; apply length_map).
  unfold row_at. rewrite app_nth1 by lia.
  unfold prices at 1 2 3. rewrite map_app. fold (prices df) (prices extra).
  rewrite rolling_mean_at_app, pct_change_at_app by lia.
  unfold shift_back_at. now rewrite nth_error_app1 by lia.
Qed.

Lemma survives_final_row (df : list Observation) :
  survives df (length df - 1) = false.
Proof.
  destruct (survives df (length df - 1)) eqn:E; [|reflexivity].
  apply survives_not_last in E. lia.
Qed.

(** X7.  Extending a frame at its end never changes or removes a row
    derived from the shorter frame: its feature rows and targets are an
    initial segment of those of the longer frame. *)
Theorem rows_of_extended_frame (df extra : list Observation) :
  exists more_X more_y,
    fst (_prepare_features (df ++ extra))
    = fst (_prepare_features df) ++ more_X /\
    snd (_prepare_features (df ++ extra))
    = snd (_prepare_features df) ++ more_y.
Proof.
  assert (E : exists more,
             dropna (add_columns (df ++ extra))
             = dropna (add_columns df) ++ more).
  { destruct (Nat.eq_dec (length df) 0) as [H0|H0].
    - apply length_zero_iff_nil in H0. subst df.
      exists (dropna (add_columns extra)). reflexivity.
    - rewrite !dropna_add_columns, length_app.
      assert (L : filter (survives df) (seq 0 (length df))
                  = filter (survives df) (seq 0 (length df - 1))).
      { replace (length df) with ((length df - 1) + 1) at 1 by lia.
        rewrite seq_app, filter_app.
        rewrite (filter_none _ (seq _ 1)); [apply app_nil_r|].
        intros i Hi. apply in_seq in Hi.
        replace i with (length df - 1) by lia. apply survives_final_row. }
      replace (length df + length extra)
        with ((length df - 1) + (1 + length extra)) by lia.
      rewrite L, seq_app, filter_app, map_app.
      eexists. f_equal.
      rewrite (filter_ext_in (survives (df ++ extra)) (survives df)).
      + apply map_ext_in. intros i Hi. apply filter_In in Hi.
        destruct Hi as [Hi _]. apply in_seq in Hi.
        apply row_at_app. lia.
      + intros i Hi. apply in_seq in Hi. unfold survives.
        rewrite row_at_app by lia. reflexivity. }
  destruct E as [more E]. unfold _prepare_features. simpl.
  rewrite E, !map_app. eauto.
Qed.

(** ** Dicts: keys and entries *)

Section DictKeys.

Context {V : Type}.

Lemma dict_get_In (k : string) (v : V) (d : dict V) :
  dict_get k d = Some v -> In (k, v) d.
Proof.
  induction d as [|[k' v'] r IH]; simpl; [discriminate|].
  destruct (String.eqb_spec k k') as [->|Hne].
  - intros E. inversion E. now left.
  - intros E. right. now apply IH.
Qed.

Lemma In_dict_mem (k : string) (v : V) (d : dict V) :
  In (k, v) d -> dict_mem k d = true.
Proof.
  unfold dict_mem. induction d as [|[k' v'] r IH]; simpl; [intros []|].
  intros [E|H].
  - inversion E; subst. now rewrite String.eqb_refl.
  - destruct (String.eqb k k'); [reflexivity|]. now apply IH.
Qed.

Lemma In_dict_set (k k' : string) (v v' : V) (d : dict V) :
  In (k', v') (dict_set k v d) -> (k' = k /\ v' = v) \/ In (k', v') d.
Proof.
  induction d as [|[k'' v''] r IH]; simpl.
  - intros [E|[]]. inversion E. auto.
  - destruct (String.eqb k k''); simpl.
    + intros [E|H]; [inversion E; auto|auto].
    + intros [E|H]; [auto|]. destruct (IH H); auto.
Qed.

Lemma dict_set_keys_in (k x : string) (v : V) (d : dict V) :
  In x (map fst (dict_set k v d)) -> x = k \/ In x (map fst d).
Proof.
  intros H. apply in_map_iff in H. destruct H as [[k' v'] [<- H]].
  apply In_dict_set in H. destruct H as [[-> _]|H]; [now left|].
  right. simpl. apply in_map_iff. now exists (k', v').
Qed.

Lemma dict_set_NoDup (k : string) (v : V) (d : dict V) :
  NoDup (map fst d) -> NoDup (map fst (dict_set k v d)).
Proof.
  induction d as [|[k' v'] r IH]; simpl; intros Hnd.
  - repeat constructor. intros [].
  - inversion Hnd as [|? ? Hk Hr]; subst.
    destruct (String.eqb_spec k k') as [->|Hne]; simpl.
    + now constructor.
    + constructor; [|now apply IH].
      intros Hin. apply dict_set_keys_in in Hin.
      destruct Hin as [E|Hin]; [congruence|contradiction].
Qed.

End DictKeys.

(** ** What the handlers and the thread do to the two dicts *)

Section StateFacts.

Context {sk : Sklearn}.

Lemma train_keeps_symbol (m : StockPriceModel sk) (h : list Observation) :
  m_symbol (snd (train m h)) = m_symbol m.
Proof.
  unfold train. destruct h as [|o r]; [reflexivity|].
  destruct (_prepare_features (sort_values (o :: r))) as [X y].
  destruct (length X <? 10); [reflexivity|].
  destruct (fit_transform sk X) as [[sc Xs]|]; [|reflexivity].
  destruct (fit sk Xs y) as [f|]; [|reflexivity].
  destruct (predict _ _); reflexivity.
Qed.

Lemma predict_reply_symbol (m : StockPriceModel sk) (d : list Observation)
    (p : Prediction) :
  predict m d = PredictOk p -> p_symbol p = m_symbol m.
Proof.
  unfold predict. destruct d as [|o r]; [discriminate|].
  destruct (iloc_last _) as [x|]; [|discriminate].
  destruct (m_scaler m) as [sc|]; [|discriminate].
  destruct (transform sk sc x) as [xs|]; [|discriminate].
  destruct (m_model m) as [fo|]; [|discriminate].
  destruct (forest_predict sk fo xs); [|discriminate].
  intros E. inversion E. reflexivity.
Qed.

(** What a request does to the history store. *)
Lemma predict_endpoint_data_store (payload : Payload) (st : Service sk) :
  data_store (snd (predict_endpoint payload st))
  = if not_symbol (req_symbol payload) || not_data (req_data payload)
    then data_store st
    else match req_symbol payload, req_data payload with
         | Some s, Some D => dict_set s D (data_store st)
         | _, _ => data_store st
         end.
Proof.
  unfold predict_endpoint.
  destruct (not_symbol (req_symbol payload) || not_data (req_data payload));
    [reflexivity|].
  destruct (req_symbol payload) as [s|]; [|reflexivity].
  destruct (req_data payload) as [D|]; [|reflexivity].
  cbn [data_store_replace models].
  destruct (dict_get s (models st)); [reflexivity|].
  destruct (train (sk:=sk) (init s) D) as [[msg|a b c|e] m']; reflexivity.
Qed.

(** The thread never writes to the history store, even when it dies. *)
Lemma train_items_data_store (items : list (string * list Observation))
    (st : Service sk) :
  data_store (snd (train_items items st)) = data_store st.
Proof.
  revert st. induction items as [|[s d] rest IH]; intros st; [reflexivity|].
  rewrite train_items_cons. destruct (20 <=? length d); [|apply IH].
  cbv zeta.
  destruct (train _ d) as [[msg|a b c|e] m']; try (rewrite IH; reflexivity).
  reflexivity.
Qed.

Lemma step_data_store (p : Process sk) (e : event) (s : string) :
  stores_to s e = false ->
  dict_get s (data_store (service (step p e)))
  = dict_get s (data_store (service p)).
Proof.
  intros Hs. destruct e as [payload|s'|]; simpl.
  - rewrite predict_endpoint_data_store. simpl in Hs.
    destruct (not_symbol (req_symbol payload) || not_data (req_data payload));
      [reflexivity|].
    destruct (req_symbol payload) as [s0|]; [|reflexivity].
    destruct (req_data payload) as [D|]; [|reflexivity].
    simpl in Hs. apply String.eqb_neq in Hs.
    apply dict_get_set_other. congruence.
  - reflexivity.
  - destruct (scheduler_alive p); [|reflexivity].
    assert (E := train_items_data_store (data_store (service p)) (service p)).
    unfold tick. destruct (train_items _ _) as [[e|] st']; simpl in *;
      now rewrite E.
Qed.

End StateFacts.

Section Invariants.

Context {sk : Sklearn}.

Lemma run_invariant (P : Service sk -> Prop) :
  (forall p e, P (service p) -> P (service (step p e))) ->
  forall es p, P (service p) -> P (service (run p es)).
Proof.
  intros Hstep. unfold run. induction es as [|e es IH]; intros p Hp; simpl.
  - exact Hp.
  - apply IH, Hstep, Hp.
Qed.

Lemma step_tick_data_store (p : Process sk) :
  data_store (service (step p Tick)) = data_store (service p).
Proof.
  simpl. destruct (scheduler_alive p); [|reflexivity].
  assert (E := train_items_data_store (data_store (service p)) (service p)).
  unfold tick. destruct (train_items _ _) as [[e|] st']; simpl in *; exact E.
Qed.

Lemma step_store_ok (p : Process sk) (e : event) :
  store_ok (service p) -> store_ok (service (step p e)).
Proof.
  intros [Hnd Hin]. destruct e as [payload|s'|].
  - unfold store_ok. simpl. rewrite predict_endpoint_data_store.
    destruct (not_symbol (req_symbol payload)) eqn:Es; simpl; [now split|].
    destruct (not_data (req_data payload)) eqn:Ed; simpl; [now split|].
    destruct (req_symbol payload) as [s|]; [|now split].
    destruct (req_data payload) as [D|]; [|now split].
    split; [now apply dict_set_NoDup|].
    intros s0 d0 H0. apply In_dict_set in H0.
    destruct H0 as [[-> ->]|H0]; [|now apply Hin].
    simpl in Es, Ed. split.
    + now apply String.eqb_neq.
    + destruct D; [discriminate|discriminate].
  - now split.
  - unfold store_ok. rewrite step_tick_data_store. now split.
Qed.

(** X8.  Whatever requests and ticks the process has gone through since it
    started, the history store holds each symbol once, every stored symbol
    and every stored list is non-empty, and so [get_data] never answers
    with an empty list. *)
Theorem reachable_store_ok (es : list event) (s : string) :
  store_ok (service (run (start sk) es)) /\
  get_data s (service (run (start sk) es)) <> History [].
Proof.
  assert (H : store_ok (service (run (start sk) es))).
  { apply (run_invariant store_ok).
    - apply step_store_ok.
    - split; [constructor|intros ? ? []]. }
  split; [exact H|].
  unfold get_data. destruct (dict_get s _) as [d|] eqn:E; [|discriminate].
  intros Eq. inversion Eq; subst.
  apply dict_get_In in E. destruct H as [_ H]. now destruct (H s [] E).
Qed.

Lemma train_items_registry_ok (items : list (string * list Observation)) :
  forall st : Service sk,
  (forall s d, In (s, d) items -> dict_mem s (data_store st) = true) ->
  registry_ok st -> registry_ok (snd (train_items items st)).
Proof.
  induction items as [|[s d] rest IH]; intros st Hitems Hok; [exact Hok|].
  rewrite train_items_cons.
  assert (Hrest : forall s0 d0, In (s0, d0) rest ->
                                dict_mem s0 (data_store st) = true)
    by (intros s0 d0 H0; apply (Hitems s0 d0); now right).
  destruct (20 <=? length d); [|now apply IH].
  cbv zeta.
  set (m := match dict_get s (models st) with
            | Some m => m | None => init s end).
  assert (Hm : m_symbol m = s).
  { subst m. destruct (dict_get s (models st)) as [m0|] eqn:E;
      [|reflexivity]. destruct Hok as [_ Hok]. now destruct (Hok s m0 E). }
  clearbody m.
  assert (Hm' := train_keeps_symbol m d).
  destruct (train m d) as [r m'] eqn:Et. simpl in Hm'.
  assert (Hok2 : forall pr, registry_ok
            (mkService sk (dict_set s m' (models st)) (data_store st) pr)).
  { intros pr. destruct Hok as [Hnd Hok]. split; simpl.
    - now apply dict_set_NoDup.
    - intros s0 m0. destruct (String.eqb_spec s0 s) as [Heq|Hne]; [subst s0|].
      + rewrite dict_get_set_same. intros E. injection E as <-. split.
        * congruence.
        * apply (Hitems s d). now left.
      + rewrite dict_get_set_other by exact Hne. apply Hok. }
  destruct r as [msg|a b c|e]; try (apply IH; [exact Hrest|apply Hok2]).
  apply Hok2.
Qed.

Lemma step_registry_ok (p : Process sk) (e : event) :
  registry_ok (service p) -> registry_ok (service (step p e)).
Proof.
  intros Hok. destruct e as [payload|s'|]; [|exact Hok|].
  - simpl. unfold predict_endpoint.
    destruct (not_symbol (req_symbol payload) || not_data (req_data payload));
      [exact Hok|].
    destruct (req_symbol payload) as [s|]; [|exact Hok].
    destruct (req_data payload) as [D|]; [|exact Hok].
    destruct Hok as [Hnd Hok].
    assert (Hold : forall s0 m0, dict_get s0 (models (service p)) = Some m0 ->
              m_symbol m0 = s0 /\
              dict_mem s0 (dict_set s D (data_store (service p))) = true).
    { intros s0 m0 E. destruct (Hok s0 m0 E) as [H1 H2]. split; [exact H1|].
      rewrite dict_mem_set, H2. apply orb_true_r. }
    cbn [data_store_replace models].
    destruct (dict_get s (models (service p))) as [m|] eqn:Eg.
    + split; assumption.
    + assert (Hsym := train_keeps_symbol (sk:=sk) (init s) D).
      destruct (train (sk:=sk) (init s) D) as [[msg|a b c|e] m'];
        simpl in *; try (split; assumption).
      split; simpl.
      * now apply dict_set_NoDup.
      * intros s0 m0. destruct (String.eqb_spec s0 s) as [Heq|Hne]; [subst s0|].
        -- rewrite dict_get_set_same. intros E. injection E as <-.
           split; [exact Hsym|].
           rewrite dict_mem_set, String.eqb_refl. reflexivity.
        -- rewrite dict_get_set_other by exact Hne. apply Hold.
  - simpl. destruct (scheduler_alive p); [|exact Hok].
    assert (H := train_items_registry_ok (data_store (service p)) (service p)
                   (fun s d Hin => In_dict_mem s d _ Hin) Hok).
    unfold tick. destruct (train_items _ _) as [[e|] st']; exact H.
Qed.

(** X9.  Whatever requests and ticks the process has gone through since it
    started, the registry holds each symbol once, the model stored under a
    symbol was built for that symbol, and every registered symbol has a
    stored history. *)
Theorem reachable_registry_ok (es : list event) :
  registry_ok (service (run (start sk) es)).
Proof.
  apply (run_invariant registry_ok).
  - apply step_registry_ok.
  - split; [constructor|]. intros s m E. discriminate.
Qed.

(** X10.  A prediction returned to a request carries the symbol the request
    named, in any state in which the registry is in order (so in every state
    the process reaches). *)
Theorem reply_carries_requested_symbol (payload : Payload) (st : Service sk)
    (pr : Prediction) :
  registry_ok st ->
  fst (predict_endpoint payload st) = PredictionReply pr ->
  req_symbol payload = Some (p_symbol pr).
Proof.
  intros [_ Hok]. unfold predict_endpoint.
  destruct (not_symbol (req_symbol payload) || not_data (req_data payload));
    [discriminate|].
  destruct (req_symbol payload) as [s|]; [|discriminate].
  destruct (req_data payload) as [D|]; [|discriminate].
  cbn [data_store_replace models].
  destruct (dict_get s (models st)) as [m|] eqn:Eg.
  - simpl. destruct (predict m D) as [msg|p|e] eqn:Ep; try discriminate.
    intros E. inversion E; subst.
    apply predict_reply_symbol in Ep. destruct (Hok s m Eg) as [Hs _].
    congruence.
  - assert (Hsym := train_keeps_symbol (sk:=sk) (init s) D).
    destruct (train (sk:=sk) (init s) D) as [[msg|a b c|e] m'];
      try discriminate.
    simpl in *. destruct (predict m' D) as [msg|p|e] eqn:Ep; try discriminate.
    intros E. inversion E; subst.
    apply predict_reply_symbol in Ep. congruence.
Qed.

End Invariants.

Lemma reply_carries_requested_symbol_witness :
  exists pr,
    fst (predict_endpoint (post "BBB" twenty_five_rows)
           (empty_service toy_sklearn)) = PredictionReply pr /\
    Some "BBB"%string = Some (p_symbol pr).
Proof.
  eexists. split; [vm_compute; reflexivity|].
  apply (reply_carries_requested_symbol (sk:=toy_sklearn)
           (post "BBB" twenty_five_rows) (empty_service toy_sklearn)).
  - split; [constructor|]. intros s m E. discriminate.
  - vm_compute. reflexivity.
Defined.

(** ** Histories over a run of requests and ticks *)

Section Histories.

Context {sk : Sklearn}.

Lemma run_keeps_history (s : string) (es : list event) :
  forallb (fun e => negb (stores_to s e)) es = true ->
  forall p : Process sk,
    dict_get s (data_store (service (run p es)))
    = dict_get s (data_store (service p)).
Proof.
  unfold run. induction es as [|e es IH]; intros Hall p; [reflexivity|].
  simpl in Hall. apply andb_prop in Hall. destruct Hall as [He Hes].
  simpl. rewrite (IH Hes). apply step_data_store.
  now apply negb_true_iff in He.
Qed.

(** X11.  The history of a symbol is what its last accepted request
    submitted: after a valid request for [s] with batch [D], any run of
    ticks, reads, rejected requests and requests for other symbols leaves
    [get_data s] answering [D]. *)
Theorem last_post_wins (s : string) (D : list Observation)
    (es : list event) (p : Process sk) :
  s <> ""%string -> D <> [] ->
  forallb (fun e => negb (stores_to s e)) es = true ->
  get_data s (service (run p (Post (post s D) :: es))) = History D.
Proof.
  intros Hs HD Hes. unfold get_data.
  change (run p (Post (post s D) :: es))
    with (run (step p (Post (post s D))) es).
  rewrite (run_keeps_history s es Hes). simpl.
  rewrite predict_endpoint_stores by assumption. simpl.
  now rewrite dict_get_set_same.
Qed.

(** X12.  A symbol for which no request has been accepted since the process
    started is unknown to [get_data], whatever else has happened. *)
Theorem unknown_symbol_not_found (s : string) (es : list event) :
  forallb (fun e => negb (stores_to s e)) es = true ->
  get_data s (service (run (start sk) es))
  = NotFound "No data for this symbol".
Proof.
  intros Hes. unfold get_data.
  now rewrite (run_keeps_history s es Hes).
Qed.

(** X13.  A tick does nothing at all while every stored history has fewer
    than 20 observations: no model is created or trained, nothing is
    printed, and the thread stays alive. *)
Theorem tick_below_threshold (st : Service sk) :
  (forall s d, In (s, d) (data_store st) -> length d < 20) ->
  tick st = (None, st).
Proof.
  unfold tick. generalize (data_store st) as items.
  induction items as [|[s d] rest IH]; intros Hall; [reflexivity|].
  rewrite train_items_cons.
  replace (20 <=? length d) with false.
  - apply IH. intros s0 d0 H0. apply (Hall s0 d0). now right.
  - symmetry. apply Nat.leb_gt. apply (Hall s d). now left.
Qed.

Lemma train_items_keeps_members (items : list (string * list Observation))
    (s : string) :
  forall st : Service sk,
    dict_mem s (models st) = true ->
    dict_mem s (models (snd (train_items items st))) = true.
Proof.
  induction items as [|[s0 d] rest IH]; intros st Hm; [exact Hm|].
  rewrite train_items_cons. destruct (20 <=? length d); [|now apply IH].
  cbv zeta.
  destruct (train _ d) as [[msg|a b c|e] m']; simpl;
    try apply IH; simpl; rewrite dict_mem_set, Hm; apply orb_true_r.
Qed.

Lemma predict_endpoint_keeps_model (payload : Payload) (st : Service sk)
    (s : string) (m : StockPriceModel sk) :
  dict_get s (models st) = Some m ->
  dict_get s (models (snd (predict_endpoint payload st))) = Some m.
Proof.
  intros Hm. unfold predict_endpoint.
  destruct (not_symbol (req_symbol payload) || not_data (req_data payload));
    [exact Hm|].
  destruct (req_symbol payload) as [s0|]; [|exact Hm].
  destruct (req_data payload) as [D|]; [|exact Hm].
  cbn [data_store_replace models].
  destruct (dict_get s0 (models st)) as [m0|] eqn:Eg; [exact Hm|].
  destruct (train (sk:=sk) (init s0) D) as [[msg|a b c|e] m'];
    simpl; try exact Hm.
  rewrite dict_get_set_other; [exact Hm|]. congruence.
Qed.

(** X14.  A request never touches a model that is already registered: the
    registry entry of every symbol, the requested one included, is after
    the request what it was before. *)
Theorem request_keeps_registered_models (payload : Payload) (st : Service sk)
    (s : string) (m : StockPriceModel sk) :
  dict_get s (models st) = Some m ->
  dict_get s (models (snd (predict_endpoint payload st))) = Some m.
Proof. apply predict_endpoint_keeps_model. Qed.

(** X15.  Registry entries are never removed: a symbol that has a model
    keeps having one through any run of requests, reads and ticks. *)
Theorem registry_is_add_only (s : string) (es : list event)
    (p : Process sk) :
  dict_mem s (models (service p)) = true ->
  dict_mem s (models (service (run p es))) = true.
Proof.
  apply (run_invariant (fun st => dict_mem s (models st) = true)).
  clear p. intros p e Hm. destruct e as [payload|s'|]; simpl.
  - unfold dict_mem in *.
    destruct (dict_get s (models (service p))) as [m|] eqn:E;
      [|discriminate].
    now rewrite (predict_endpoint_keeps_model payload _ s m E).
  - exact Hm.
  - destruct (scheduler_alive p); [|exact Hm].
    assert (H := train_items_keeps_members (data_store (service p)) s
                   (service p) Hm).
    unfold tick. destruct (train_items _ _) as [[e|] st']; exact H.
Qed.

(** X16.  A valid first request for a symbol with fewer than 15 observations
    is always answered "pending": the batch is stored, no model is
    registered, and nothing else changes. *)
Theorem short_first_ingest_is_pending (s : string) (D : list Observation)
    (st : Service sk) :
  s <> ""%string -> D <> [] -> length D < 15 ->
  dict_get s (models st) = None ->
  predict_endpoint (post s D) st
  = (PendingTraining "Not enough data for training",
     data_store_replace s D st).
Proof.
  intros Hs HD Hlen Hnone. unfold predict_endpoint, post.
  cbn [req_symbol req_data not_symbol].
  apply String.eqb_neq in Hs. rewrite Hs.
  destruct D as [|o r]; [congruence|]. cbn [not_data orb].
  cbn [data_store_replace models]. rewrite Hnone.
  rewrite train_too_few_rows; [reflexivity|discriminate|].
  assert (H := rows_at_most (sort_values (o :: r))).
  rewrite sort_values_length in H. lia.
Qed.

End Histories.

Lemma last_post_wins_witness :
  get_data "AAA"
    (service (run (start toy_sklearn)
                [Post (post "AAA" ten_rows); Tick;
                 Post (post "BBB" twenty_five_rows); Get "AAA"; Tick]))
  = History ten_rows.
Proof.
  apply (last_post_wins (sk:=toy_sklearn) "AAA" ten_rows
           [Tick; Post (post "BBB" twenty_five_rows); Get "AAA"; Tick]
           (start toy_sklearn)).
  - discriminate.
  - discriminate.
  - reflexivity.
Defined.

Lemma unknown_symbol_not_found_witness :
  get_data "CCC"
    (service (run (start toy_sklearn)
                [Post (post "AAA" ten_rows); Tick;
                 Post (mkPayload (Some "CCC"%string) (Some []))]))
  = NotFound "No data for this symbol".
Proof.
  apply (unknown_symbol_not_found (sk:=toy_sklearn) "CCC").
  reflexivity.
Defined.

Lemma tick_below_threshold_witness :
  let st := snd (predict_endpoint (post "AAA" ten_rows)
                   (empty_service toy_sklearn)) in
  tick st = (None, st).
Proof.
  intros st. apply (tick_below_threshold st).
  intros s d [H|[]]. inversion H; subst. simpl. lia.
Defined.

Lemma request_keeps_registered_models_witness :
  let st := snd (predict_endpoint (post "BBB" twenty_five_rows)
                   (empty_service toy_sklearn)) in
  dict_get "BBB" (models (snd (predict_endpoint (post "BBB" ten_rows) st)))
  = Some (mkModel toy_sklearn "BBB" (Some tt) (Some tt)).
Proof.
  intros st.
  apply (request_keeps_registered_models (post "BBB" ten_rows) st "BBB").
  reflexivity.
Defined.

Lemma registry_is_add_only_witness :
  let p := run (start toy_sklearn) [Post (post "BBB" twenty_five_rows)] in
  dict_mem "BBB" (models (service (run p [Tick; Post (post "BBB" ten_rows)])))
  = true.
Proof.
  intros p.
  apply (registry_is_add_only "BBB" [Tick; Post (post "BBB" ten_rows)] p).
  reflexivity.
Defined.

Lemma short_first_ingest_is_pending_witness :
  predict_endpoint (post "AAA" ten_rows) (empty_service toy_sklearn)
  = (PendingTraining "Not enough data for training",
     data_store_replace "AAA" ten_rows (empty_service toy_sklearn)).
Proof.
  apply (short_first_ingest_is_pending (sk:=toy_sklearn) "AAA" ten_rows).
  - discriminate.
  - discriminate.
  - simpl; lia.
  - reflexivity.
Defined.

(** ** More on predict, the guard and the tick *)

Section MoreFacts.

Context {sk : Sklearn}.

(** X17.  On one to five observations [predict] answers "Not enough data
    for prediction" whatever the model, fitted or not: the data is checked
    before the estimators are touched. *)
Theorem predict_short_input (m : StockPriceModel sk) (d : list Observation) :
  d <> [] -> length d < 6 ->
  predict m d = PredictError "Not enough data for prediction".
Proof.
  intros Hne Hlen. unfold predict. destruct d as [|o r]; [congruence|].
  rewrite features_short by (rewrite sort_values_length; exact Hlen).
  reflexivity.
Qed.


(** X19.  The 400 answer is given to the requests without a symbol or
    without data and to no other: a request with a non-empty symbol and a
    non-empty list is never rejected as a bad request. *)
Theorem bad_request_iff (payload : Payload) (st : Service sk) (msg : string) :
  fst (predict_endpoint payload st) = BadRequest msg <->
  (req_symbol payload = None \/ req_symbol payload = Some ""%string \/
   req_data payload = None \/ req_data payload = Some []) /\
  msg = "Symbol and data required"%string.
Proof.
  split.
  - unfold predict_endpoint.
    destruct (req_symbol payload) as [s|]; simpl;
      [|intros E; inversion E; auto].
    destruct (req_data payload) as [D|]; simpl.
    + destruct (String.eqb_spec s "") as [->|Hs]; simpl;
        [intros E; inversion E; auto|].
      destruct D as [|o r]; simpl; [intros E; inversion E; auto 6|].
      destruct (dict_get s (models st)) as [m|].
      * simpl. destruct (predict m (o :: r)); discriminate.
      * destruct (train (sk:=sk) (init s) (o :: r)) as [[msg'|a b c|e] m'];
          simpl; try discriminate.
        destruct (predict m' (o :: r)); discriminate.
    + rewrite orb_true_r. intros E; inversion E; auto 6.
  - intros [H ->]. unfold predict_endpoint.
    destruct H as [H|[H|[H|H]]]; rewrite H; simpl;
      try reflexivity; now rewrite orb_true_r.
Qed.

Lemma train_items_skips_small (items : list (string * list Observation))
    (s : string) :
  (forall d, In (s, d) items -> length d < 20) ->
  forall st : Service sk,
    dict_get s (models (snd (train_items items st))) = dict_get s (models st).
Proof.
  induction items as [|[s0 d] rest IH]; intros Hsmall st; [reflexivity|].
  assert (Hrest : forall d0, In (s, d0) rest -> length d0 < 20)
    by (intros d0 H0; apply Hsmall; now right).
  rewrite train_items_cons.
  destruct (Nat.leb_spec 20 (length d)) as [Hd|Hd]; [|now apply IH].
  assert (Hne : s <> s0).
  { intros ->. specialize (Hsmall d (or_introl eq_refl)). lia. }
  cbv zeta.
  destruct (train _ d) as [[msg|a b c|e] m']; simpl;
    try rewrite IH by exact Hrest; simpl;
    now rewrite dict_get_set_other by exact Hne.
Qed.

(** X20.  A tick leaves alone every symbol whose stored history has fewer
    than 20 observations: it creates no model for it and does not retrain
    the one it has. *)
Theorem tick_skips_small_histories (st : Service sk) (s : string) :
  (forall d, In (s, d) (data_store st) -> length d < 20) ->
  dict_get s (models (snd (tick st))) = dict_get s (models st).
Proof. intros H. unfold tick. now apply train_items_skips_small. Qed.

Lemma train_items_keeps_fitted (items : list (string * list Observation)) :
  (forall s d, In (s, d) items -> 20 <= length d ->
     forall m : StockPriceModel sk,
     exists a b c, fst (train m d) = TrainSuccess a b c) ->
  forall st : Service sk,
    registry_fitted st -> registry_fitted (snd (train_items items st)).
Proof.
  induction items as [|[s d] rest IH]; intros Hgood st Hfit; [exact Hfit|].
  assert (Hrest : forall s0 d0, In (s0, d0) rest -> 20 <= length d0 ->
            forall m : StockPriceModel sk,
            exists a b c, fst (train m d0) = TrainSuccess a b c)
    by (intros s0 d0 H0; apply (Hgood s0 d0); now right).
  rewrite train_items_cons.
  destruct (Nat.leb_spec 20 (length d)) as [Hd|Hd]; [|now apply IH].
  cbv zeta.
  set (m := match dict_get s (models st) with
            | Some m => m | None => init s end).
  destruct (Hgood s d (or_introl eq_refl) Hd m) as (a & b & c & Ht).
  destruct (train m d) as [r m'] eqn:Et. simpl in Ht. subst r.
  apply IH; [exact Hrest|].
  intros s0 m0. simpl.
  destruct (String.eqb_spec s0 s) as [Heq|Hne].
  - subst s0. rewrite dict_get_set_same. intros E. injection E as <-.
    destruct (train_success_fitted _ _ _ _ _ _ Et) as (f & sc & Hf & Hs).
    unfold fitted. now rewrite Hs, Hf.
  - rewrite dict_get_set_other by exact Hne. apply Hfit.
Qed.

(** X21.  When the training of every stored history of 20 or more
    observations succeeds, a tick keeps every registered model fitted,
    the ones it creates included. *)
Theorem tick_keeps_registry_fitted (st : Service sk) :
  (forall s d, In (s, d) (data_store st) -> 20 <= length d ->
     forall m : StockPriceModel sk,
     exists a b c, fst (train m d) = TrainSuccess a b c) ->
  registry_fitted st ->
  registry_fitted (snd (tick st)).
Proof. intros Hgood. unfold tick. now apply train_items_keeps_fitted. Qed.

End MoreFacts.

Lemma predict_short_input_witness :
  predict (sk:=toy_sklearn)
    (snd (train (init "BBB") twenty_five_rows)) (ramp "BBB" 5 100 10 0)
  = PredictError "Not enough data for prediction".
Proof.
  apply (predict_short_input (sk:=toy_sklearn)).
  - discriminate.
  - simpl; lia.
Defined.


Lemma tick_skips_small_histories_witness :
  let st := snd (predict_endpoint (post "AAA" ten_rows) two_symbols) in
  dict_get "AAA" (models (snd (tick st))) = None.
Proof.
  intros st.
  rewrite (tick_skips_small_histories st "AAA"); [reflexivity|].
  intros d Hd.
  change (data_store st)
    with [("ZZZ"%string, twenty_zero); ("BBB"%string, twenty_five_rows);
          ("AAA"%string, ten_rows)] in Hd.
  destruct Hd as [H|[H|[H|[]]]]; inversion H; subst. simpl. lia.
Defined.

Lemma tick_keeps_registry_fitted_witness :
  let st := snd (predict_endpoint (post "BBB" twenty_five_rows)
                   (empty_service toy_sklearn)) in
  registry_fitted (snd (tick st)).
Proof.
  intros st. apply (tick_keeps_registry_fitted st).
  - intros s d Hin _ m.
    change (data_store st) with [("BBB"%string, twenty_five_rows)] in Hin.
    destruct Hin as [H|[]]. inversion H; subst.
    destruct m as [sym f sc]. do 3 eexists. vm_compute. reflexivity.
  - intros s m E.
    change (models st)
      with [("BBB"%string, mkModel toy_sklearn "BBB" (Some tt) (Some tt))]
      in E.
    simpl in E. destruct (String.eqb s "BBB"); [|discriminate].
    injection E as <-. reflexivity.
Defined.
